(** * Verification of the Atlantis and GitHub service clients

    A shallow embedding of [services/atlantis/atlantis.py] and of the
    git-tree, branch and comment operations of [services/github/github.py],
    together with the properties their specification states about them.

    Python dictionaries used as maps (headers, JSON payloads, returned
    mappings) are [gmap]s; the [files] dictionary, whose iteration order
    decides the order of the remote calls, is an association list.  Calls
    into [requests] and PyGithub are calls to a handler over an abstract
    remote state; every client operation runs in a state-and-exception
    monad that also records the calls it made, in order. *)

From Stdlib Require Import ZArith List String Ascii Bool Lia.
From stdpp Require Import base option list strings pretty gmap fin_maps.

Set Warnings "-register-all".

Open Scope string_scope.
Open Scope Z_scope.
Open Scope list_scope.

(** ** Python values, exceptions and results *)

(** A JSON document, as [response.json()] returns it and as the [json=]
    argument of [requests.request] takes it. *)
Inductive Json :=
| JNull
| JBool (b : bool)
| JNum (z : Z)
| JStr (s : string)
| JList (l : list Json)
| JObj (m : gmap string Json).

(** The exceptions the two clients raise or let through. [str e] of a
    library exception is carried by the exception itself.  [TypeError] is
    what a call with a keyword the callee does not have raises, and
    [AttributeError] what the use of a method an object does not have
    raises. *)
Inductive PyExn :=
| ValueError (msg : string)
| GithubException (status : Z) (text : string)
| HTTPError (status : Z) (body : string)
| RequestException (text : string)
| JSONDecodeError (text : string)
| TypeError (msg : string)
| AttributeError (msg : string).

(** [f"{e}"] *)
Definition str (e : PyExn) : string :=
  match e with
  | ValueError msg => msg
  | GithubException _ text => text
  | HTTPError _ body => body
  | RequestException text => text
  | JSONDecodeError text => text
  | TypeError msg => msg
  | AttributeError msg => msg
  end.

Inductive Result (A : Type) :=
| Ok (a : A)
| Raise (e : PyExn).
Arguments Ok {A} a.
Arguments Raise {A} e.

(** Truth value of a [str] and of an [Optional[str]]: [None] and the empty
    string are false. *)
Definition truthy (s : string) : bool := negb (String.eqb s "").

Definition truthy_opt (o : option string) : bool :=
  match o with
  | Some s => truthy s
  | None => false
  end.

(** ** The state-and-exception monad of a client call

    A computation takes the state (the remote side and the calls recorded so
    far) and returns a value or a raised exception, and the new state: what
    was done before an exception stays done. *)
Definition Eff (S A : Type) : Type := S -> Result A * S.

Definition ret {S A} (a : A) : Eff S A := fun s => (Ok a, s).

Definition raise {S A} (e : PyExn) : Eff S A := fun s => (Raise e, s).

Definition bind {S A B} (m : Eff S A) (k : A -> Eff S B) : Eff S B :=
  fun s =>
    match m s with
    | (Ok a, s') => k a s'
    | (Raise e, s') => (Raise e, s')
    end.

(** [try: body  except ... as e: handler e]; a handler re-raises what its
    clauses do not catch. *)
Definition try_except {S A} (body : Eff S A) (handler : PyExn -> Eff S A) : Eff S A :=
  fun s =>
    match body s with
    | (Ok a, s') => (Ok a, s')
    | (Raise e, s') => handler e s'
    end.

Declare Scope eff_scope.
Delimit Scope eff_scope with eff.
Notation "x <- c1 ;; c2" := (bind c1 (fun x => c2))
  (at level 100, c1 at next level, right associativity) : eff_scope.
Notation "c1 ;;; c2" := (bind c1 (fun _ => c2))
  (at level 100, right associativity) : eff_scope.

(** [for x in xs: acc = step x acc], with the side effects of each step. *)
Fixpoint for_each {S A B} (xs : list A) (step : A -> B -> Eff S B) (acc : B) : Eff S B :=
  match xs with
  | [] => ret acc
  | x :: rest => bind (step x acc) (fun acc' => for_each rest step acc')
  end.

(** The state of a client call: the remote side, and the calls made to it so
    far, oldest first. *)
Record Recorded (W C : Type) := {
  remote : W;
  calls : list C
}.
Arguments remote {W C} _.
Arguments calls {W C} _.

(** One call to the remote side: [f] is what the remote side does, [entry]
    the record kept of the call and of its outcome. *)
Definition perform {W C A} (f : W -> Result A * W) (entry : Result A -> C)
    : Eff (Recorded W C) A :=
  fun s =>
    let '(r, w') := f (remote s) in
    (r, {| remote := w'; calls := calls s ++ [entry r] |}).

(** A computation that only returns or raises. *)
Definition lift {S A} (r : Result A) : Eff S A := fun s => (r, s).

(** [msg] contains [needle] as a substring. *)
Definition mentions (needle msg : string) : Prop :=
  exists pre post, msg = pre +:+ needle +:+ post.

(** ** [services/atlantis/atlantis.py] *)

Module Atlantis.

Record HTTPBasicAuth := {
  username : string;
  password : string
}.

Record AtlantisService := {
  base_url : string;
  timeout : Z;
  verify_ssl : bool;
  auth : option HTTPBasicAuth;
  headers : gmap string string
}.

(** [s.rstrip(chars)]: [s] without its longest suffix made of characters of
    [chars]. *)
Fixpoint in_chars (a : ascii) (chars : string) : bool :=
  match chars with
  | EmptyString => false
  | String c rest => Ascii.eqb a c || in_chars a rest
  end.

Fixpoint rstrip (chars s : string) : string :=
  match s with
  | EmptyString => EmptyString
  | String a rest =>
      match rstrip chars rest with
      | EmptyString => if in_chars a chars then EmptyString else String a EmptyString
      | kept => String a kept
      end
  end.

(** [AtlantisService.__init__] *)
Definition __init__ (base_url : string) (username password token : option string)
    (verify_ssl : bool) (timeout : Z) : Result AtlantisService :=
  if negb (truthy base_url) then Raise (ValueError "base_url is required")
  else if negb (truthy_opt username) && negb (truthy_opt password) && negb (truthy_opt token)
  then Raise (ValueError "Either username/password or token must be provided for authentication")
  else
    let self_base_url := rstrip "/" base_url in
    let self_auth : option HTTPBasicAuth := None in
    let self_headers : gmap string string := ∅ in
    if truthy_opt token then
      let tok := default "" token in
      let self_headers := <["X-Atlantis-Token" := tok]> self_headers in
      let self_headers := <["Authorization" := "Bearer " +:+ tok]> self_headers in
      Ok (Build_AtlantisService self_base_url timeout verify_ssl self_auth self_headers)
    else if truthy_opt username && truthy_opt password then
      let self_auth := Some (Build_HTTPBasicAuth (default "" username) (default "" password)) in
      Ok (Build_AtlantisService self_base_url timeout verify_ssl self_auth self_headers)
    else
      Ok (Build_AtlantisService self_base_url timeout verify_ssl self_auth self_headers).

(** The keyword arguments of [requests.request]. *)
Record Request := {
  req_method : string;
  req_url : string;
  req_params : option (gmap string Json);
  req_json : option (gmap string Json);
  req_auth : option HTTPBasicAuth;
  req_headers : gmap string string;
  req_verify : bool;
  req_timeout : Z
}.

(** What the client reads of a [requests.Response]: [status_code], [text]
    and the outcome of [json()]. *)
Record Response := {
  status_code : Z;
  text : string;
  json : Result Json
}.

(** [Response.raise_for_status] of the requests library: an [HTTPError] for
    a client-error (4xx) or server-error (5xx) status, nothing otherwise. *)
Definition raise_for_status {S} (response : Response) : Eff S unit :=
  if (400 <=? status_code response) && (status_code response <? 600)
  then raise (HTTPError (status_code response) (text response))
  else ret tt.

Section Client.

Context {W : Type}.

(** [requests.request]: the server and the network, on a remote state [W]. *)
Variable requests_request : Request -> W -> Result Response * W.

#[local] Open Scope eff_scope.

(** [AtlantisService._make_request] *)
Definition _make_request (self : AtlantisService) (method endpoint : string)
    (params json_data : option (gmap string Json)) : Eff (Recorded W Request) Json :=
  let url := base_url self +:+ endpoint in
  let request :=
    {| req_method := method;
       req_url := url;
       req_params := params;
       req_json := json_data;
       req_auth := auth self;
       req_headers := headers self;
       req_verify := verify_ssl self;
       req_timeout := timeout self |} in
  response <- perform (requests_request request) (fun _ => request) ;;
  raise_for_status response ;;;
  if (status_code response =? 204) || negb (truthy (text response))
  then ret (JObj ∅)
  else lift (json response).

(** A [List[Dict[str, str]]] as the JSON it is sent as. *)
Definition paths_json (paths : list (gmap string string)) : Json :=
  JList (map (fun d : gmap string string => JObj (JStr <$> d)) paths).

(** [AtlantisService.plan] *)
Definition plan (self : AtlantisService) (repository ref vcs_type : string)
    (paths : list (gmap string string)) (pr_number : option Z)
    : Eff (Recorded W Request) Json :=
  let payload : gmap string Json :=
    {[ "Repository" := JStr repository;
       "Ref" := JStr ref;
       "Type" := JStr vcs_type;
       "Paths" := paths_json paths ]} in
  let payload :=
    match pr_number with
    | Some n => <["PR" := JNum n]> payload
    | None => payload
    end in
  _make_request self "POST" "/api/plan" None (Some payload).

(** [AtlantisService.apply] *)
Definition apply (self : AtlantisService) (repository ref vcs_type : string)
    (paths : list (gmap string string)) (pr_number : option Z)
    : Eff (Recorded W Request) Json :=
  let payload : gmap string Json :=
    {[ "Repository" := JStr repository;
       "Ref" := JStr ref;
       "Type" := JStr vcs_type;
       "Paths" := paths_json paths ]} in
  let payload :=
    match pr_number with
    | Some n => <["PR" := JNum n]> payload
    | None => payload
    end in
  _make_request self "POST" "/api/apply" None (Some payload).

(** What a call that reads a field of the response raises: an exception of
    the request, or the [AttributeError] of [.get] on a value that is not a
    dictionary. *)
Inductive Raised :=
| Exn (e : PyExn)
| AttributeError (value : Json).

(** [response.get(key, [])] *)
Definition get_or_empty (response : Json) (key : string) : Raised + Json :=
  match response with
  | JObj m => inr (default (JList []) (m !! key))
  | other => inl (AttributeError other)
  end.

(** [response = <request>; return response.get(key, [])] *)
Definition unwrap {S} (key : string) (request : Eff S Json) : S -> (Raised + Json) * S :=
  fun s =>
    match request s with
    | (Ok response, s') => (get_or_empty response key, s')
    | (Raise e, s') => (inl (Exn e), s')
    end.

(** [AtlantisService.get_projects] *)
Definition get_projects (self : AtlantisService)
    : Recorded W Request -> (Raised + Json) * Recorded W Request :=
  unwrap "projects" (_make_request self "GET" "/api/projects" None None).

(** [AtlantisService.get_project] *)
Definition get_project (self : AtlantisService) (repo : string)
    (project branch : option string) : Eff (Recorded W Request) Json :=
  let params : gmap string Json := {[ "repo" := JStr repo ]} in
  let params :=
    if truthy_opt project then <["project" := JStr (default "" project)]> params
    else params in
  let params :=
    if truthy_opt branch then <["branch" := JStr (default "" branch)]> params
    else params in
  _make_request self "GET" "/api/project" (Some params) None.

(** [AtlantisService.get_project_status] *)
Definition get_project_status (self : AtlantisService) (repo : string)
    (project branch : option string) : Eff (Recorded W Request) Json :=
  let params : gmap string Json := {[ "repo" := JStr repo ]} in
  let params :=
    if truthy_opt project then <["project" := JStr (default "" project)]> params
    else params in
  let params :=
    if truthy_opt branch then <["branch" := JStr (default "" branch)]> params
    else params in
  _make_request self "GET" "/api/project/status" (Some params) None.

(** [AtlantisService.get_locks] *)
Definition get_locks (self : AtlantisService) (repo : option string)
    : Recorded W Request -> (Raised + Json) * Recorded W Request :=
  let params : gmap string Json := ∅ in
  let params :=
    if truthy_opt repo then <["repo" := JStr (default "" repo)]> params
    else params in
  unwrap "locks" (_make_request self "GET" "/api/locks" (Some params) None).

(** [AtlantisService.delete_lock] *)
Definition delete_lock (self : AtlantisService) (lock_id : string)
    (repo project : option string) : Eff (Recorded W Request) Json :=
  let params : gmap string Json := {[ "id" := JStr lock_id ]} in
  let params :=
    if truthy_opt repo then <["repo" := JStr (default "" repo)]> params
    else params in
  let params :=
    if truthy_opt project then <["project" := JStr (default "" project)]> params
    else params in
  _make_request self "DELETE" "/api/locks" (Some params) None.

(** [AtlantisService.get_events]; an [int] is true when it is not zero. *)
Definition get_events (self : AtlantisService) (limit : option Z)
    : Recorded W Request -> (Raised + Json) * Recorded W Request :=
  let params : gmap string Json := ∅ in
  let params :=
    match limit with
    | Some n => if negb (n =? 0) then <["limit" := JNum n]> params else params
    | None => params
    end in
  unwrap "events" (_make_request self "GET" "/api/events" (Some params) None).

(** [AtlantisService.get_version] *)
Definition get_version (self : AtlantisService) : Eff (Recorded W Request) Json :=
  _make_request self "GET" "/api/version" None None.

(** [AtlantisService.get_health] *)
Definition get_health (self : AtlantisService) : Eff (Recorded W Request) Json :=
  _make_request self "GET" "/api/health" None None.

End Client.

End Atlantis.

(** ** [services/github/github.py] *)

Module GitHub.

(** What the client reads of the PyGithub objects it is handed. *)
Record Repository := {
  full_name : string
}.

(** [ref.object.sha] is [object_sha]. *)
Record GitRef := {
  ref : string;
  object_sha : string
}.

(** [commit.tree.sha] is [commit_tree_sha]. *)
Record GitCommit := {
  commit_sha : string;
  commit_tree_sha : string
}.

Record GitTreeElement := {
  path : string;
  mode : string;
  type : string;
  sha : string
}.

Record GitTree := {
  tree_sha : string;
  tree : list GitTreeElement
}.

Record GitBlob := {
  blob_sha : string
}.

(** [github.InputGitTreeElement(path, mode, type, content=NotSet,
    sha=NotSet)]: an entry names its object by [sha], or gives the text of a
    new blob as [content]; [None] is an argument left at [NotSet].  The
    fourth positional argument is [content]. *)
Inductive InputGitTreeElement :=
| InputGitTreeElement_ (path mode type : string) (content sha : option string).

Record PullRequest := {
  number : Z
}.

(** An [IssueComment] or a [PullRequestComment]. *)
Record Comment := {
  comment_id : Z;
  comment_body : string
}.

(** The PyGithub calls the client makes, each on a remote state [W]. *)
Record PyGithub (W : Type) := {
  get_repo : string -> W -> Result Repository * W;
  get_git_ref : Repository -> string -> W -> Result GitRef * W;
  get_git_commit : Repository -> string -> W -> Result GitCommit * W;
  get_git_tree : Repository -> string -> bool -> W -> Result GitTree * W;
  create_git_blob : Repository -> string -> string -> W -> Result GitBlob * W;
  create_git_tree :
    Repository -> list InputGitTreeElement -> GitTree -> W -> Result GitTree * W;
  create_git_commit :
    Repository -> string -> GitTree -> list GitCommit -> W -> Result GitCommit * W;
  create_git_ref : Repository -> string -> string -> W -> Result GitRef * W;
  edit : GitRef -> string -> W -> Result unit * W;
  get_pull : Repository -> Z -> W -> Result PullRequest * W;
  create_issue_comment : PullRequest -> string -> W -> Result Comment * W
}.
Arguments get_repo {W} _ _ _.
Arguments get_git_ref {W} _ _ _ _.
Arguments get_git_commit {W} _ _ _ _.
Arguments get_git_tree {W} _ _ _ _ _.
Arguments create_git_blob {W} _ _ _ _ _.
Arguments create_git_tree {W} _ _ _ _ _.
Arguments create_git_commit {W} _ _ _ _ _ _.
Arguments create_git_ref {W} _ _ _ _ _.
Arguments edit {W} _ _ _ _.
Arguments get_pull {W} _ _ _ _.
Arguments create_issue_comment {W} _ _ _ _.

(** The record of one call: its receiver and arguments, and its outcome. *)
Inductive Call :=
| GetRepo (full_name_or_id : string) (r : Result Repository)
| GetGitRef (repository : Repository) (ref : string) (r : Result GitRef)
| GetGitCommit (repository : Repository) (sha : string) (r : Result GitCommit)
| GetGitTree (repository : Repository) (sha : string) (recursive : bool)
    (r : Result GitTree)
| CreateGitBlob (repository : Repository) (content encoding : string)
    (r : Result GitBlob)
| CreateGitTree (repository : Repository) (tree : list InputGitTreeElement)
    (base_tree : GitTree) (r : Result GitTree)
| CreateGitCommit (repository : Repository) (message : string) (tree : GitTree)
    (parents : list GitCommit) (r : Result GitCommit)
| CreateGitRef (repository : Repository) (ref sha : string) (r : Result GitRef)
| Edit (ref : GitRef) (sha : string) (r : Result unit)
| GetPull (repository : Repository) (number : Z) (r : Result PullRequest)
| CreateIssueComment (pr : PullRequest) (body : string) (r : Result Comment).

Section Service.

Context {W : Type}.

(** [self.github] *)
Variable github : PyGithub W.

#[local] Open Scope eff_scope.

Definition Run (A : Type) : Type := Eff (Recorded W Call) A.

(** [GitHubService.get_repository] *)
Definition get_repository (owner repo : string) : Run Repository :=
  let name := owner +:+ "/" +:+ repo in
  perform (get_repo github name) (GetRepo name).

(** [GitHubService.push_to_pull_request] *)
Definition push_to_pull_request (owner repo branch file_path content message : string)
    (pr_number : option Z) : Run (gmap string Json) :=
  repository <- get_repository owner repo ;;
  let ref_name := "heads/" +:+ branch in
  ref <- perform (get_git_ref github repository ref_name)
           (GetGitRef repository ref_name) ;;
  commit <- perform (get_git_commit github repository (object_sha ref))
              (GetGitCommit repository (object_sha ref)) ;;
  tree <- perform (get_git_tree github repository (commit_tree_sha commit) true)
            (GetGitTree repository (commit_tree_sha commit) true) ;;
  blob <- perform (create_git_blob github repository content "utf-8")
            (CreateGitBlob repository content "utf-8") ;;
  let tree_elements : list InputGitTreeElement := [] in
  let tree_elements :=
    fold_left
      (fun tree_elements element =>
         if bool_decide (path element ≠ file_path)
         then tree_elements ++
                [InputGitTreeElement_ (path element) (mode element) (type element)
                   (Some (sha element)) None]
         else tree_elements)
      (GitHub.tree tree) tree_elements in
  let tree_elements :=
    tree_elements ++
      [InputGitTreeElement_ file_path "100644" "blob" (Some (blob_sha blob)) None] in
  new_tree <- perform (create_git_tree github repository tree_elements tree)
                (CreateGitTree repository tree_elements tree) ;;
  new_commit <- perform (create_git_commit github repository message new_tree [commit])
                  (CreateGitCommit repository message new_tree [commit]) ;;
  perform (edit github ref (commit_sha new_commit)) (Edit ref (commit_sha new_commit)) ;;;
  ret ({[ "commit_sha" := JStr (commit_sha new_commit);
          "branch" := JStr branch;
          "file_path" := JStr file_path;
          "message" := JStr message ]} : gmap string Json).

(** [GitHubService.create_branch] *)
Definition create_branch (owner repo branch base_branch : string)
    : Run (gmap string Json) :=
  repository <- get_repository owner repo ;;
  try_except
    (perform (get_git_ref github repository ("heads/" +:+ branch))
       (GetGitRef repository ("heads/" +:+ branch)) ;;;
     raise (ValueError ("Branch '" +:+ branch +:+ "' already exists")))
    (fun e =>
       match e with
       | GithubException status _ => if negb (status =? 404) then raise e else ret tt
       | ValueError _ => raise e
       | _ => raise e
       end) ;;;
  base_ref <- try_except
                (perform (get_git_ref github repository ("heads/" +:+ base_branch))
                   (GetGitRef repository ("heads/" +:+ base_branch)))
                (fun e =>
                   raise (ValueError
                            ("Base branch '" +:+ base_branch +:+ "' not found: " +:+ str e))) ;;
  perform (create_git_ref github repository ("refs/heads/" +:+ branch) (object_sha base_ref))
    (CreateGitRef repository ("refs/heads/" +:+ branch) (object_sha base_ref)) ;;;
  ret ({[ "branch" := JStr branch;
          "base_branch" := JStr base_branch;
          "commit_sha" := JStr (object_sha base_ref) ]} : gmap string Json).

(** [GitHubService.push_files_to_branch]; [files] lists the items of the
    dictionary in its iteration order. *)
Definition push_files_to_branch (owner repo branch : string)
    (files : list (string * string)) (message : string) : Run (gmap string Json) :=
  repository <- get_repository owner repo ;;
  branch_ref <- try_except
                  (perform (get_git_ref github repository ("heads/" +:+ branch))
                     (GetGitRef repository ("heads/" +:+ branch)))
                  (fun e =>
                     raise (ValueError
                              ("Branch '" +:+ branch +:+ "' not found: " +:+ str e))) ;;
  commit <- perform (get_git_commit github repository (object_sha branch_ref))
              (GetGitCommit repository (object_sha branch_ref)) ;;
  tree <- perform (get_git_tree github repository (commit_tree_sha commit) true)
            (GetGitTree repository (commit_tree_sha commit) true) ;;
  let file_paths : gset string := list_to_set (map fst files) in
  let tree_elements : list InputGitTreeElement := [] in
  let tree_elements :=
    fold_left
      (fun tree_elements element =>
         if bool_decide (path element ∉ file_paths)
         then tree_elements ++
                [InputGitTreeElement_ (path element) (mode element) (type element)
                   (Some (sha element)) None]
         else tree_elements)
      (GitHub.tree tree) tree_elements in
  tree_elements <-
    for_each files
      (fun '(file_path, content) tree_elements =>
         blob <- perform (create_git_blob github repository content "utf-8")
                   (CreateGitBlob repository content "utf-8") ;;
         ret (tree_elements ++
                [InputGitTreeElement_ file_path "100644" "blob" (Some (blob_sha blob))
                   None]))
      tree_elements ;;
  new_tree <- perform (create_git_tree github repository tree_elements tree)
                (CreateGitTree repository tree_elements tree) ;;
  new_commit <- perform (create_git_commit github repository message new_tree [commit])
                  (CreateGitCommit repository message new_tree [commit]) ;;
  perform (edit github branch_ref (commit_sha new_commit))
    (Edit branch_ref (commit_sha new_commit)) ;;;
  ret ({[ "commit_sha" := JStr (commit_sha new_commit);
          "branch" := JStr branch;
          "files" := JList (map JStr (map fst files));
          "message" := JStr message ]} : gmap string Json).

(** [GitHubService.create_pull_request_comment].  The review comment is
    asked for with the keywords [body], [commit_id], [path], [line] and
    [side]; [PullRequest.create_review_comment] takes the commit as [commit]
    and has no parameter [commit_id], so the call raises [TypeError] before
    anything is sent. *)
Definition create_pull_request_comment (owner repo : string) (pr_number : Z)
    (body : string) (commit_id path : option string) (line : option Z)
    (side : option string) : Run Comment :=
  repository <- get_repository owner repo ;;
  pr <- perform (get_pull github repository pr_number) (GetPull repository pr_number) ;;
  if truthy_opt commit_id && truthy_opt path && bool_decide (line ≠ None) then
    raise (TypeError
             "PullRequest.create_review_comment() got an unexpected keyword argument 'commit_id'")
  else
    perform (create_issue_comment github pr body) (CreateIssueComment pr body).

End Service.

End GitHub.

(** ** [services/github/github.py]: construction, webhooks, pull requests,
    branch protection, labels and comment removal *)

Module GitHubAdmin.

Import GitHub.

(** The keyword arguments of [Github(...)]; [arg_base_url] is [None] when
    the argument is not passed. *)
Record GithubArgs := {
  arg_base_url : option string;
  arg_login_or_token : string;
  arg_verify : bool;
  arg_timeout : Z
}.

Record GitHubService := {
  token : string;
  timeout : Z;
  verify : bool;
  github : GithubArgs
}.

(** [GitHubService.__init__] *)
Definition __init__ (token : string) (base_url : option string) (verify : bool)
    (timeout : Z) : Result GitHubService :=
  if negb (truthy token) then Raise (ValueError "token is required")
  else if truthy_opt base_url then
    Ok {| token := token; timeout := timeout; verify := verify;
          github := {| arg_base_url := Some (default "" base_url);
                       arg_login_or_token := token;
                       arg_verify := verify;
                       arg_timeout := timeout |} |}
  else
    Ok {| token := token; timeout := timeout; verify := verify;
          github := {| arg_base_url := None;
                       arg_login_or_token := token;
                       arg_verify := verify;
                       arg_timeout := timeout |} |}.

Record Hook := {
  hook_id : Z
}.

Record Branch := {
  branch_name : string
}.

(** Further PyGithub calls, each on a remote state [W].  Two methods the
    client uses are not among them because the SDK does not have them: a
    [Branch] has no [protect] (its method is [edit_protection]) and a
    [Repository] has no [get_issue_comment]. *)
Record PyGithubAdmin (W : Type) := {
  create_hook :
    Repository -> string -> gmap string string -> list string -> bool -> W ->
    Result Hook * W;
  get_hook : Repository -> Z -> W -> Result Hook * W;
  hook_delete : Hook -> W -> Result unit * W;
  create_pull :
    Repository -> string -> string -> string -> string -> bool -> W ->
    Result PullRequest * W;
  get_branch : Repository -> string -> W -> Result Branch * W;
  add_to_labels : PullRequest -> string -> W -> Result unit * W;
  remove_from_labels : PullRequest -> string -> W -> Result unit * W
}.
Arguments create_hook {W} _ _ _ _ _ _ _.
Arguments get_hook {W} _ _ _ _.
Arguments hook_delete {W} _ _ _.
Arguments create_pull {W} _ _ _ _ _ _ _ _.
Arguments get_branch {W} _ _ _ _.
Arguments add_to_labels {W} _ _ _ _.
Arguments remove_from_labels {W} _ _ _ _.

(** The record of one call: a call of [GitHub.Call], or one of the further
    calls with its receiver, its arguments and its outcome.  The last two
    are the lookup and the deletion of an issue comment, which the SDK
    offers on a pull request and on an issue. *)
Inductive AdminCall :=
| Core (c : Call)
| CreateHook (repository : Repository) (name : string) (config : gmap string string)
    (events : list string) (active : bool) (r : Result Hook)
| GetHook (repository : Repository) (id : Z) (r : Result Hook)
| HookDelete (hook : Hook) (r : Result unit)
| CreatePull (repository : Repository) (title body head base : string) (draft : bool)
    (r : Result PullRequest)
| GetBranch (repository : Repository) (branch : string) (r : Result Branch)
| AddToLabels (pr : PullRequest) (label : string) (r : Result unit)
| RemoveFromLabels (pr : PullRequest) (label : string) (r : Result unit)
| GetIssueComment (repository : Repository) (id : Z) (r : Result Comment)
| CommentDelete (comment : Comment) (r : Result unit).

Section Service.

Context {W : Type}.

(** [self.github], seen through the calls of [GitHub] and through the
    further calls. *)
Variable github : PyGithub W.
Variable admin : PyGithubAdmin W.

#[local] Open Scope eff_scope.

Definition Run (A : Type) : Type := Eff (Recorded W AdminCall) A.

(** An operation of [GitHub] run here: its calls are recorded after the
    calls made so far. *)
Definition core {A} (m : Eff (Recorded W Call) A) : Run A :=
  fun s =>
    let '(r, s1) := m {| remote := remote s; calls := [] |} in
    (r, {| remote := remote s1; calls := calls s ++ map Core (calls s1) |}).

(** [GitHubService.create_webhook] *)
Definition create_webhook (owner repo url content_type : string)
    (secret : option string) (events : option (list string)) (active : bool)
    : Run Hook :=
  repository <- core (get_repository github owner repo) ;;
  let config : gmap string string :=
    {[ "url" := url; "content_type" := content_type ]} in
  let config :=
    if truthy_opt secret then <["secret" := default "" secret]> config else config in
  let events :=
    match events with
    | None => ["*"]
    | Some given => given
    end in
  perform (create_hook admin repository "web" config events active)
    (CreateHook repository "web" config events active).

(** [GitHubService.delete_webhook] *)
Definition delete_webhook (owner repo : string) (hook_id : Z) : Run bool :=
  repository <- core (get_repository github owner repo) ;;
  hook <- perform (get_hook admin repository hook_id) (GetHook repository hook_id) ;;
  perform (hook_delete admin hook) (HookDelete hook) ;;;
  ret true.

(** [GitHubService.create_pull_request]; [body or ""] is the body when it is
    a non-empty string and the empty string otherwise. *)
Definition create_pull_request (owner repo title head base : string)
    (body : option string) (draft : bool) : Run PullRequest :=
  repository <- core (get_repository github owner repo) ;;
  let body_or_empty := if truthy_opt body then default "" body else "" in
  perform (create_pull admin repository title body_or_empty head base draft)
    (CreatePull repository title body_or_empty head base draft).

(** [GitHubService.update_branch_protection].  [branch_obj.protect] is
    looked up before any argument of the call is evaluated, and a [Branch]
    has no such method. *)
Definition update_branch_protection (owner repo branch : string)
    (required_status_checks : option (gmap string Json)) (enforce_admins : bool)
    (required_pull_request_reviews restrictions : option (gmap string Json))
    (allow_force_pushes allow_deletions : bool) : Run Branch :=
  repository <- core (get_repository github owner repo) ;;
  branch_obj <- perform (get_branch admin repository branch)
                  (GetBranch repository branch) ;;
  raise (AttributeError "'Branch' object has no attribute 'protect'").

(** [GitHubService.add_label_to_pull_request] *)
Definition add_label_to_pull_request (owner repo : string) (pr_number : Z)
    (label_name : string) : Run bool :=
  repository <- core (get_repository github owner repo) ;;
  pr <- core (perform (get_pull github repository pr_number)
                (GetPull repository pr_number)) ;;
  perform (add_to_labels admin pr label_name) (AddToLabels pr label_name) ;;;
  ret true.

(** [GitHubService.remove_label_from_pull_request] *)
Definition remove_label_from_pull_request (owner repo : string) (pr_number : Z)
    (label_name : string) : Run bool :=
  repository <- core (get_repository github owner repo) ;;
  pr <- core (perform (get_pull github repository pr_number)
                (GetPull repository pr_number)) ;;
  perform (remove_from_labels admin pr label_name) (RemoveFromLabels pr label_name) ;;;
  ret true.

(** [GitHubService.delete_pull_request_comment].  A [Repository] has no
    method [get_issue_comment]. *)
#[using="github admin"] Definition delete_pull_request_comment (owner repo : string)
    (comment_id : Z) : Run bool :=
  repository <- core (get_repository github owner repo) ;;
  raise (AttributeError "'Repository' object has no attribute 'get_issue_comment'").

End Service.

End GitHubAdmin.

(** ** Concrete remote sides

    A scripted HTTP server and an in-memory git host, on which the client
    operations run by computation. *)

Module Mock.

Import GitHub.

(** A server that answers each request with the next scripted response, and
    refuses the connection when none is left. *)
Definition scripted (request : Atlantis.Request) (w : list Atlantis.Response)
    : Result Atlantis.Response * list Atlantis.Response :=
  match w with
  | response :: rest => (Ok response, rest)
  | [] => (Raise (RequestException "Connection refused"), [])
  end.

(** A client constructed with a token. *)
Definition token_client : Atlantis.AtlantisService := {|
  Atlantis.base_url := "https://atlantis.example.com";
  Atlantis.timeout := 30;
  Atlantis.verify_ssl := true;
  Atlantis.auth := None;
  Atlantis.headers :=
    {[ "X-Atlantis-Token" := "test-token"; "Authorization" := "Bearer test-token" ]}
|}.

(** Three responses: 204 without a body, 304 without a body, and 404. *)
Definition no_content : Atlantis.Response := {|
  Atlantis.status_code := 204;
  Atlantis.text := "";
  Atlantis.json := Raise (JSONDecodeError "Expecting value")
|}.

Definition not_modified : Atlantis.Response := {|
  Atlantis.status_code := 304;
  Atlantis.text := "";
  Atlantis.json := Raise (JSONDecodeError "Expecting value")
|}.

Definition missing : Atlantis.Response := {|
  Atlantis.status_code := 404;
  Atlantis.text := "Not Found";
  Atlantis.json := Raise (JSONDecodeError "Expecting value")
|}.

(** An in-memory git host: references by full name, commits with their
    trees, trees with their entries, and a counter naming new objects.  With
    [outage] set, every call on a repository fails with that status. *)
Record Host := {
  refs : gmap string string;
  commits : gmap string string;
  trees : gmap string (list GitTreeElement);
  created : N;
  outage : option Z
}.

Definition answer {A} (w : Host) (f : Result A * Host) : Result A * Host :=
  match outage w with
  | Some status => (Raise (GithubException status "Server Error"), w)
  | None => f
  end.

Definition not_found {A} (w : Host) : Result A * Host :=
  (Raise (GithubException 404 "404 Not Found"), w).

Definition fresh (kind : string) (w : Host) : string := kind +:+ pretty (created w).

(** The entry a submitted element becomes: it keeps the object named by
    [sha]; given [content] instead, it points at a new blob holding that
    text, which the host names after it. *)
Definition entry_of (e : InputGitTreeElement) : GitTreeElement :=
  match e with
  | InputGitTreeElement_ p m t _ (Some s) =>
      {| path := p; mode := m; type := t; sha := s |}
  | InputGitTreeElement_ p m t (Some text) None =>
      {| path := p; mode := m; type := t; sha := "blob-of:" +:+ text |}
  | InputGitTreeElement_ p m t None None =>
      {| path := p; mode := m; type := t; sha := "" |}
  end.

Definition host : PyGithub Host := {|
  get_repo name w := (Ok {| full_name := name |}, w);
  get_git_ref _ name w :=
    answer w
      match refs w !! ("refs/" +:+ name) with
      | Some commit => (Ok {| ref := "refs/" +:+ name; object_sha := commit |}, w)
      | None => not_found w
      end;
  get_git_commit _ commit w :=
    answer w
      match commits w !! commit with
      | Some t => (Ok {| commit_sha := commit; commit_tree_sha := t |}, w)
      | None => not_found w
      end;
  get_git_tree _ t _ w :=
    answer w
      match trees w !! t with
      | Some entries => (Ok {| tree_sha := t; tree := entries |}, w)
      | None => not_found w
      end;
  create_git_blob _ _ _ w :=
    answer w
      (Ok {| blob_sha := fresh "blob" w |},
       {| refs := refs w; commits := commits w; trees := trees w;
          created := (created w + 1)%N; outage := outage w |});
  create_git_tree _ elements _ w :=
    answer w
      (Ok {| tree_sha := fresh "tree" w; tree := map entry_of elements |},
       {| refs := refs w; commits := commits w;
          trees := <[fresh "tree" w := map entry_of elements]> (trees w);
          created := (created w + 1)%N; outage := outage w |});
  create_git_commit _ _ t _ w :=
    answer w
      (Ok {| commit_sha := fresh "commit" w; commit_tree_sha := tree_sha t |},
       {| refs := refs w;
          commits := <[fresh "commit" w := tree_sha t]> (commits w);
          trees := trees w; created := (created w + 1)%N; outage := outage w |});
  create_git_ref _ name commit w :=
    answer w
      (Ok {| ref := name; object_sha := commit |},
       {| refs := <[name := commit]> (refs w); commits := commits w; trees := trees w;
          created := created w; outage := outage w |});
  edit r commit w :=
    answer w
      (Ok tt,
       {| refs := <[ref r := commit]> (refs w); commits := commits w; trees := trees w;
          created := created w; outage := outage w |});
  get_pull _ n w := answer w (Ok {| number := n |}, w);
  create_issue_comment _ body w :=
    answer w
      (Ok {| comment_id := Z.of_N (created w); comment_body := body |},
       {| refs := refs w; commits := commits w; trees := trees w;
          created := (created w + 1)%N; outage := outage w |})
|}.

(** A repository whose branch [main] holds the one file [other_file.py]. *)
Definition other_file : GitTreeElement :=
  {| path := "other_file.py"; mode := "100644"; type := "blob"; sha := "old_sha" |}.

Definition one_file : Host := {|
  refs := {[ "refs/heads/main" := "commit_sha" ]};
  commits := {[ "commit_sha" := "tree_sha" ]};
  trees := {[ "tree_sha" := [other_file] ]};
  created := 0;
  outage := None
|}.

(** The same repository while the host answers every call with status 500. *)
Definition one_file_down : Host := {|
  refs := refs one_file;
  commits := commits one_file;
  trees := trees one_file;
  created := 0;
  outage := Some 500
|}.

Definition start {W C} (w : W) : Recorded W C := {| remote := w; calls := [] |}.

(** A host that refuses every call: the token is not accepted. *)
Definition refused {A} (w : unit) : Result A * unit :=
  (Raise (GithubException 401 "Bad credentials"), w).

Definition denied : PyGithub unit := {|
  get_repo _ := refused;
  get_git_ref _ _ := refused;
  get_git_commit _ _ := refused;
  get_git_tree _ _ _ := refused;
  create_git_blob _ _ _ := refused;
  create_git_tree _ _ _ := refused;
  create_git_commit _ _ _ _ := refused;
  create_git_ref _ _ _ := refused;
  edit _ _ := refused;
  get_pull _ _ := refused;
  create_issue_comment _ _ := refused
|}.

(** The same repository once a blob had been created on it: the host
    answers the lookups but refuses to write a tree. *)
Definition read_only : PyGithub Host := {|
  get_repo := get_repo host;
  get_git_ref := get_git_ref host;
  get_git_commit := get_git_commit host;
  get_git_tree := get_git_tree host;
  create_git_blob := create_git_blob host;
  create_git_tree _ _ _ w := (Raise (GithubException 403 "Forbidden"), w);
  create_git_commit := create_git_commit host;
  create_git_ref _ _ _ w := (Raise (GithubException 403 "Forbidden"), w);
  edit := edit host;
  get_pull := get_pull host;
  create_issue_comment := create_issue_comment host
|}.

(** The further calls on the in-memory host: hooks are found under any id,
    branches under the references of the host. *)
Definition admin_host : GitHubAdmin.PyGithubAdmin Host := {|
  GitHubAdmin.create_hook _ _ _ _ _ w :=
    answer w
      (Ok {| GitHubAdmin.hook_id := Z.of_N (created w) |},
       {| refs := refs w; commits := commits w; trees := trees w;
          created := (created w + 1)%N; outage := outage w |});
  GitHubAdmin.get_hook _ id w := answer w (Ok {| GitHubAdmin.hook_id := id |}, w);
  GitHubAdmin.hook_delete _ w := answer w (Ok tt, w);
  GitHubAdmin.create_pull _ _ _ _ _ _ w :=
    answer w
      (Ok {| number := Z.of_N (created w) |},
       {| refs := refs w; commits := commits w; trees := trees w;
          created := (created w + 1)%N; outage := outage w |});
  GitHubAdmin.get_branch _ name w :=
    answer w
      match refs w !! ("refs/heads/" +:+ name) with
      | Some _ => (Ok {| GitHubAdmin.branch_name := name |}, w)
      | None => not_found w
      end;
  GitHubAdmin.add_to_labels _ _ w := answer w (Ok tt, w);
  GitHubAdmin.remove_from_labels _ _ w := answer w (Ok tt, w)
|}.

(** A response with a JSON object for body, and one with a JSON list. *)
Definition listing : Atlantis.Response := {|
  Atlantis.status_code := 200;
  Atlantis.text := "{...}";
  Atlantis.json :=
    Ok (JObj {[ "locks" := JList [JStr "lock-1"]; "total" := JNum 1 ]})
|}.

Definition bare_list : Atlantis.Response := {|
  Atlantis.status_code := 200;
  Atlantis.text := "[...]";
  Atlantis.json := Ok (JList [JStr "lock-1"])
|}.

End Mock.

(** ** Vocabulary of the statements *)

(** [n] slashes. *)
Fixpoint slashes (n : nat) : string :=
  match n with
  | O => EmptyString
  | S k => String "/" (slashes k)
  end.

(** The last character of a string, if it has one. *)
Fixpoint last_char (s : string) : option ascii :=
  match s with
  | EmptyString => None
  | String a EmptyString => Some a
  | String _ rest => last_char rest
  end.

(** What a plan or apply request body holds: the four arguments under their
    capitalized keys, the pull request number under [PR] when there is one,
    and no other key. *)
Definition plan_payload (repository ref vcs_type : string)
    (paths : list (gmap string string)) (pr_number : option Z)
    (payload : gmap string Json) : Prop :=
  payload !! "Repository" = Some (JStr repository) /\
  payload !! "Ref" = Some (JStr ref) /\
  payload !! "Type" = Some (JStr vcs_type) /\
  payload !! "Paths" = Some (Atlantis.paths_json paths) /\
  payload !! "PR" = JNum <$> pr_number /\
  dom payload =
    ({[ "Repository"; "Ref"; "Type"; "Paths" ]} : gset string) ∪
    (match pr_number with Some _ => {[ "PR" ]} | None => ∅ end).

(** An entry of the current tree as the client resubmits it: path, mode and
    type unchanged, and its hash as the fourth argument, the content. *)
Definition resubmitted (element : GitHub.GitTreeElement) : GitHub.InputGitTreeElement :=
  GitHub.InputGitTreeElement_ (GitHub.path element) (GitHub.mode element)
    (GitHub.type element) (Some (GitHub.sha element)) None.

(** The entry the client submits for an updated file: a regular file with
    the hash of its blob as the fourth argument, the content. *)
Definition updated (item : string * string * GitHub.GitBlob) : GitHub.InputGitTreeElement :=
  GitHub.InputGitTreeElement_ (fst (fst item)) "100644" "blob"
    (Some (GitHub.blob_sha (snd item))) None.

(** The path of a submitted entry. *)
Definition entry_path (e : GitHub.InputGitTreeElement) : string :=
  match e with
  | GitHub.InputGitTreeElement_ p _ _ _ _ => p
  end.

(** The record of the blob creation of an updated file. *)
Definition blob_created (repository : GitHub.Repository)
    (item : string * string * GitHub.GitBlob) : GitHub.Call :=
  GitHub.CreateGitBlob repository (snd (fst item)) "utf-8" (Ok (snd item)).

(** An optional string argument as the client takes it: [None] and the
    empty string are both left out. *)
Definition given (o : option string) : option string :=
  if truthy_opt o then o else None.

(** An optional integer argument as the client takes it: [None] and zero
    are both left out. *)
Definition given_int (o : option Z) : option Z :=
  match o with
  | Some n => if n =? 0 then None else Some n
  | None => None
  end.

(** A mapping holds the listed bindings, a key listed with [None] being
    absent, and holds no other key. *)
Definition holds {V} (m : gmap string V) (bindings : list (string * option V)) : Prop :=
  (forall k v, In (k, v) bindings -> m !! k = v) /\
  (forall k, ~ In k (map fst bindings) -> m !! k = None).

(** A call that changed a reference of the repository: a reference edit or
    a reference creation that returned. *)
Definition changes_ref (c : GitHub.Call) : bool :=
  match c with
  | GitHub.Edit _ _ (Ok _) => true
  | GitHub.CreateGitRef _ _ _ (Ok _) => true
  | _ => false
  end.

(** A call that removed something: a hook or a comment deletion, or a label
    removal, that returned. *)
Definition removes (c : GitHubAdmin.AdminCall) : bool :=
  match c with
  | GitHubAdmin.HookDelete _ (Ok _) => true
  | GitHubAdmin.CommentDelete _ (Ok _) => true
  | GitHubAdmin.RemoveFromLabels _ _ (Ok _) => true
  | _ => false
  end.

(** ** The monad: how a run decomposes *)

Section EffFacts.

Context {S : Type}.

Lemma bind_Ok_inv {A B} (m : Eff S A) (k : A -> Eff S B) s b s' :
  bind m k s = (Ok b, s') ->
  exists a s1, m s = (Ok a, s1) /\ k a s1 = (Ok b, s').
Proof.
  unfold bind. destruct (m s) as [[a|e] s1]; [eauto | discriminate].
Qed.

Lemma bind_Ok {A B} (m : Eff S A) (k : A -> Eff S B) s a s1 :
  m s = (Ok a, s1) -> bind m k s = k a s1.
Proof. unfold bind. intros ->. reflexivity. Qed.

Lemma bind_Raise {A B} (m : Eff S A) (k : A -> Eff S B) s e s1 :
  m s = (Raise e, s1) -> bind m k s = (Raise e, s1).
Proof. unfold bind. intros ->. reflexivity. Qed.

Lemma try_except_Ok {A} (body : Eff S A) handler s a s1 :
  body s = (Ok a, s1) -> try_except body handler s = (Ok a, s1).
Proof. unfold try_except. intros ->. reflexivity. Qed.

Lemma try_except_Raise {A} (body : Eff S A) handler s e s1 :
  body s = (Raise e, s1) -> try_except body handler s = handler e s1.
Proof. unfold try_except. intros ->. reflexivity. Qed.

End EffFacts.

Lemma perform_eq {W C A} (f : W -> Result A * W) (entry : Result A -> C) s r w' :
  f (remote s) = (r, w') ->
  perform f entry s = (r, {| remote := w'; calls := calls s ++ [entry r] |}).
Proof. unfold perform. intros ->. reflexivity. Qed.

Lemma perform_inv {W C A} (f : W -> Result A * W) (entry : Result A -> C) s r s' :
  perform f entry s = (r, s') ->
  f (remote s) = (r, remote s') /\ calls s' = calls s ++ [entry r].
Proof.
  unfold perform. destruct (f (remote s)) as [r0 w'].
  intros [= <- <-]. split; reflexivity.
Qed.

Lemma mentions_intro pre needle post : mentions needle (pre +:+ needle +:+ post).
Proof. exists pre, post. reflexivity. Qed.

Lemma truthy_true s : truthy s = true <-> s <> "".
Proof.
  unfold truthy. rewrite negb_true_iff. split.
  - intros H ->. discriminate.
  - intros H. apply String.eqb_neq. exact H.
Qed.

Lemma truthy_false s : truthy s = false <-> s = "".
Proof. unfold truthy. rewrite negb_false_iff. apply String.eqb_eq. Qed.

(** ** The Atlantis client *)

Section AtlantisFacts.

Import Atlantis.

(** *** [rstrip] *)

Lemma rstrip_empty_all chars s :
  rstrip chars s = "" -> forall a, last_char s = Some a -> in_chars a chars = true.
Proof.
  induction s as [|c rest IH]; simpl; [discriminate |].
  destruct (rstrip chars rest) eqn:E; [| discriminate].
  destruct (in_chars c chars) eqn:Ec; [| discriminate].
  intros _ a. destruct rest as [|d rest']; [intros [= <-]; exact Ec |].
  apply IH. reflexivity.
Qed.

Lemma rstrip_last chars s a :
  last_char (rstrip chars s) = Some a -> in_chars a chars = false.
Proof.
  induction s as [|c rest IH]; simpl; [discriminate |].
  destruct (rstrip chars rest) as [|d kept] eqn:E.
  - destruct (in_chars c chars) eqn:Ec; simpl; [discriminate |].
    intros [= <-]. exact Ec.
  - exact IH.
Qed.

Lemma append_cons a (s t : string) : String a s +:+ t = String a (s +:+ t).
Proof. reflexivity. Qed.

Lemma append_empty (t : string) : "" +:+ t = t.
Proof. reflexivity. Qed.

Lemma append_assoc (s t u : string) : (s +:+ t) +:+ u = s +:+ (t +:+ u).
Proof.
  induction s as [|a s IH]; [reflexivity |].
  rewrite !append_cons, IH. reflexivity.
Qed.

Lemma rstrip_slashes s : exists n, s = rstrip "/" s +:+ slashes n.
Proof.
  induction s as [|c rest [n IH]].
  - exists O. reflexivity.
  - cbn [rstrip]. destruct (rstrip "/" rest) as [|d kept] eqn:E.
    + rewrite append_empty in IH. cbn [in_chars]. rewrite orb_false_r.
      destruct (Ascii.eqb_spec c "/") as [-> | Hc].
      * exists (Datatypes.S n). rewrite append_empty. cbn [slashes].
        rewrite <- IH. reflexivity.
      * exists n. rewrite append_cons, append_empty, <- IH. reflexivity.
    + exists n. rewrite append_cons, <- IH. reflexivity.
Qed.

Lemma rstrip_id chars s :
  (forall a, last_char s = Some a -> in_chars a chars = false) ->
  rstrip chars s = s.
Proof.
  induction s as [|c rest IH]; simpl; [reflexivity |].
  intros H. destruct rest as [|d rest'].
  - simpl. rewrite (H c eq_refl). reflexivity.
  - rewrite IH by exact H. reflexivity.
Qed.

(** *** Construction *)

Lemma init_Ok_base_url base_url username password token verify_ssl timeout self :
  __init__ base_url username password token verify_ssl timeout = Ok self ->
  Atlantis.base_url self = rstrip "/" base_url.
Proof.
  unfold __init__.
  destruct (negb (truthy base_url)); [discriminate |].
  destruct (negb (truthy_opt username) && negb (truthy_opt password)
            && negb (truthy_opt token)); [discriminate |].
  destruct (truthy_opt token); [intros [= <-]; reflexivity |].
  destruct (truthy_opt username && truthy_opt password); intros [= <-]; reflexivity.
Qed.

Lemma init_succeeds base_url username password token verify_ssl timeout :
  base_url <> "" ->
  truthy_opt username || truthy_opt password || truthy_opt token = true ->
  exists self, __init__ base_url username password token verify_ssl timeout = Ok self.
Proof.
  intros Hurl Hcred. unfold __init__.
  apply truthy_true in Hurl. rewrite Hurl. cbn [negb].
  destruct (truthy_opt username), (truthy_opt password), (truthy_opt token);
    try discriminate Hcred; cbn; eauto.
Qed.

(** An empty endpoint is refused. *)
Lemma init_requires_endpoint username password token verify_ssl timeout :
  __init__ "" username password token verify_ssl timeout =
  Raise (ValueError "base_url is required").
Proof. reflexivity. Qed.

(** With no username, no password and no token, construction is refused. *)
Lemma init_requires_credentials base_url username password token verify_ssl timeout :
  base_url <> "" ->
  truthy_opt username = false -> truthy_opt password = false ->
  truthy_opt token = false ->
  __init__ base_url username password token verify_ssl timeout =
  Raise (ValueError
           "Either username/password or token must be provided for authentication").
Proof.
  intros Hurl Hu Hp Ht. unfold __init__.
  apply truthy_true in Hurl. rewrite Hurl, Hu, Hp, Ht. reflexivity.
Qed.

(** A token alone sets the two headers and no basic credentials. *)
Lemma init_token_mode base_url tok verify_ssl timeout :
  base_url <> "" -> tok <> "" ->
  __init__ base_url None None (Some tok) verify_ssl timeout =
  Ok {| base_url := rstrip "/" base_url;
        timeout := timeout;
        verify_ssl := verify_ssl;
        auth := None;
        headers := <["Authorization" := "Bearer " +:+ tok]>
                     (<["X-Atlantis-Token" := tok]> ∅) |}.
Proof.
  intros Hurl Htok. unfold __init__.
  apply truthy_true in Hurl. apply truthy_true in Htok.
  rewrite Hurl. cbn [truthy_opt negb andb]. rewrite Htok. reflexivity.
Qed.

(** A username and password alone set the basic credentials and no header. *)
Lemma init_basic_mode base_url user pass verify_ssl timeout :
  base_url <> "" -> user <> "" -> pass <> "" ->
  __init__ base_url (Some user) (Some pass) None verify_ssl timeout =
  Ok {| base_url := rstrip "/" base_url;
        timeout := timeout;
        verify_ssl := verify_ssl;
        auth := Some {| username := user; password := pass |};
        headers := ∅ |}.
Proof.
  intros Hurl Hu Hp. unfold __init__.
  apply truthy_true in Hurl. apply truthy_true in Hu. apply truthy_true in Hp.
  rewrite Hurl. cbn [truthy_opt negb andb]. rewrite Hu, Hp. reflexivity.
Qed.

(** *** The send primitive *)

Section Transport.

Context {W : Type} (requests_request : Request -> W -> Result Response * W).

(** Every run of [_make_request] sends exactly one request, built from the
    stored configuration and the arguments. *)
Lemma make_request_sends self method endpoint params json_data s :
  calls (snd (_make_request requests_request self method endpoint params json_data s)) =
  calls s ++
    [{| req_method := method;
        req_url := Atlantis.base_url self +:+ endpoint;
        req_params := params;
        req_json := json_data;
        req_auth := auth self;
        req_headers := headers self;
        req_verify := verify_ssl self;
        req_timeout := Atlantis.timeout self |}].
Proof.
  unfold _make_request, bind, perform.
  destruct (requests_request _ (remote s)) as [[response | e] w']; [| reflexivity].
  unfold raise_for_status.
  destruct ((400 <=? status_code response) && (status_code response <? 600));
    [reflexivity |].
  cbn. destruct ((status_code response =? 204) || negb (truthy (text response)));
    reflexivity.
Qed.

End Transport.

(** *** The stated properties *)

(** C9: for a non-empty endpoint (and credentials that let construction
    succeed) the stored endpoint is the given one without its trailing
    slashes: the given endpoint is the stored one followed by slashes only,
    the stored one does not end with a slash, and an endpoint that does not
    end with a slash is stored unchanged; the URL of every request sent
    later is the stored endpoint followed by the path. *)
Theorem init_strips_trailing_slashes (base_url : string)
    (username password token : option string) (verify_ssl : bool) (timeout : Z) :
  base_url <> "" ->
  truthy_opt username || truthy_opt password || truthy_opt token = true ->
  exists self,
    __init__ base_url username password token verify_ssl timeout = Ok self /\
    (exists n, base_url = Atlantis.base_url self +:+ slashes n) /\
    last_char (Atlantis.base_url self) <> Some "/"%char /\
    (last_char base_url <> Some "/"%char -> Atlantis.base_url self = base_url) /\
    forall (W : Type) (requests_request : Request -> W -> Result Response * W)
           method endpoint params json_data s,
    exists request,
      calls (snd (_make_request requests_request self method endpoint params json_data s))
      = calls s ++ [request] /\
      req_url request = Atlantis.base_url self +:+ endpoint.
Proof.
  intros Hurl Hcred.
  destruct (init_succeeds base_url username password token verify_ssl timeout Hurl Hcred)
    as [self Hself].
  exists self. pose proof (init_Ok_base_url _ _ _ _ _ _ _ Hself) as Hbase.
  split; [exact Hself |]. rewrite Hbase. repeat split.
  - apply rstrip_slashes.
  - intros Hlast. apply rstrip_last in Hlast. discriminate Hlast.
  - intros Hlast. apply rstrip_id. intros a Ha. cbn [in_chars].
    rewrite orb_false_r. apply Ascii.eqb_neq. intros ->. exact (Hlast Ha).
  - intros W requests_request method endpoint params json_data s.
    eexists. rewrite make_request_sends, Hbase. split; reflexivity.
Qed.

Lemma init_strips_trailing_slashes_witness :
  exists self,
    __init__ "https://x.com/" None None (Some "secret") true 30 = Ok self /\
    Atlantis.base_url self = "https://x.com".
Proof.
  destruct (init_strips_trailing_slashes "https://x.com/" None None (Some "secret")
              true 30 ltac:(discriminate) ltac:(reflexivity))
    as (self & Hself & _).
  exists self. split; [exact Hself |].
  vm_compute in Hself. injection Hself as <-. reflexivity.
Defined.

(** C10: with a non-empty endpoint and no token, a username without a
    password, or a password without a username, is accepted: construction
    returns a client whose basic credentials are unset and whose header
    mapping is empty, and every request it sends later carries no
    credentials and no header. *)
Theorem init_lone_username_or_password (base_url : string)
    (username password token : option string) (verify_ssl : bool) (timeout : Z) :
  base_url <> "" ->
  truthy_opt token = false ->
  (truthy_opt username = true /\ truthy_opt password = false) \/
  (truthy_opt username = false /\ truthy_opt password = true) ->
  exists self,
    __init__ base_url username password token verify_ssl timeout = Ok self /\
    auth self = None /\
    headers self = ∅ /\
    forall (W : Type) (requests_request : Request -> W -> Result Response * W)
           method endpoint params json_data s,
    exists request,
      calls (snd (_make_request requests_request self method endpoint params json_data s))
      = calls s ++ [request] /\
      req_auth request = None /\
      req_headers request = ∅.
Proof.
  intros Hurl Htok Hone. apply truthy_true in Hurl.
  eexists. split.
  - unfold __init__. rewrite Hurl, Htok.
    destruct Hone as [[-> ->] | [-> ->]]; reflexivity.
  - cbn. repeat split.
    intros W requests_request method endpoint params json_data s.
    eexists. rewrite make_request_sends. repeat split.
Qed.

Lemma init_lone_username_or_password_witness :
  exists self,
    __init__ "https://atlantis.example.com" (Some "user") None None true 30 = Ok self /\
    auth self = None /\ headers self = ∅.
Proof.
  destruct (init_lone_username_or_password "https://atlantis.example.com" (Some "user")
              None None true 30 ltac:(discriminate) ltac:(reflexivity)
              ltac:(left; split; reflexivity))
    as (self & Hself & Hauth & Hheaders & _).
  exists self. repeat split; assumption.
Defined.

(** C5, where the constructor departs from it: given a username and neither
    a password nor a token, so neither a token nor a username/password
    pair, construction does not fail; it returns a client with no
    credentials at all. *)
Theorem init_accepts_username_without_password :
  __init__ "https://atlantis.example.com" (Some "user") None None true 30 =
  Ok {| base_url := "https://atlantis.example.com";
        timeout := 30;
        verify_ssl := true;
        auth := None;
        headers := ∅ |}.
Proof. reflexivity. Qed.

Section Sending.

Context {W : Type} (requests_request : Request -> W -> Result Response * W).

Lemma payload_ok repository ref vcs_type paths pr_number :
  plan_payload repository ref vcs_type paths pr_number
    (match pr_number with
     | Some n =>
         <["PR" := JNum n]>
           ({[ "Repository" := JStr repository; "Ref" := JStr ref;
               "Type" := JStr vcs_type; "Paths" := paths_json paths ]}
            : gmap string Json)
     | None =>
         {[ "Repository" := JStr repository; "Ref" := JStr ref;
            "Type" := JStr vcs_type; "Paths" := paths_json paths ]}
     end).
Proof.
  unfold plan_payload. destruct pr_number as [n|]; repeat split; reflexivity.
Qed.

(** C6: a call to [plan] and a call to [apply] each send one POST request
    whose JSON body binds [Repository], [Ref], [Type] and [Paths] to the
    arguments, binds [PR] to the pull request number exactly when one is
    given, and has no other key. *)
Theorem plan_apply_payload (self : AtlantisService) (repository ref vcs_type : string)
    (paths : list (gmap string string)) (pr_number : option Z)
    (s : Recorded W Request) :
  (exists request payload,
     calls (snd (plan requests_request self repository ref vcs_type paths pr_number s))
     = calls s ++ [request] /\
     req_method request = "POST" /\
     req_url request = Atlantis.base_url self +:+ "/api/plan" /\
     req_json request = Some payload /\
     plan_payload repository ref vcs_type paths pr_number payload) /\
  (exists request payload,
     calls (snd (apply requests_request self repository ref vcs_type paths pr_number s))
     = calls s ++ [request] /\
     req_method request = "POST" /\
     req_url request = Atlantis.base_url self +:+ "/api/apply" /\
     req_json request = Some payload /\
     plan_payload repository ref vcs_type paths pr_number payload).
Proof.
  split; unfold plan, apply; do 2 eexists; rewrite make_request_sends;
    (split; [reflexivity |]); cbn [req_method req_url req_json];
    (repeat (split; [reflexivity |])); apply payload_ok.
Qed.

End Sending.

Section Outcome.

Context {W : Type} (requests_request : Request -> W -> Result Response * W).

(** C7, as the client has it: whatever the method, when the transport hands
    back a response, a client-error or server-error status (400 to 599)
    raises an HTTP error carrying the status and the body; any other
    response yields the empty mapping when its status is 204 or its body is
    empty, and the outcome of decoding its JSON body otherwise.  A status
    outside 200 to 299 that is not in 400 to 599 is not an error. *)
Theorem make_request_outcome (self : AtlantisService) (method endpoint : string)
    (params json_data : option (gmap string Json)) (s : Recorded W Request)
    (response : Response) (w' : W) :
  requests_request
    {| req_method := method;
       req_url := Atlantis.base_url self +:+ endpoint;
       req_params := params;
       req_json := json_data;
       req_auth := auth self;
       req_headers := headers self;
       req_verify := verify_ssl self;
       req_timeout := Atlantis.timeout self |} (remote s) = (Ok response, w') ->
  (400 <= status_code response < 600 ->
   fst (_make_request requests_request self method endpoint params json_data s) =
   Raise (HTTPError (status_code response) (text response))) /\
  (~ 400 <= status_code response < 600 ->
   status_code response = 204 \/ text response = "" ->
   fst (_make_request requests_request self method endpoint params json_data s) =
   Ok (JObj ∅)) /\
  (~ 400 <= status_code response < 600 ->
   status_code response <> 204 -> text response <> "" ->
   fst (_make_request requests_request self method endpoint params json_data s) =
   json response).
Proof.
  intros Hsend. unfold _make_request.
  rewrite (bind_Ok _ _ _ _ _ (perform_eq _ _ _ _ _ Hsend)).
  unfold bind, raise_for_status, raise, ret, lift.
  destruct ((400 <=? status_code response) && (status_code response <? 600)) eqn:Herr.
  - apply andb_true_iff in Herr as [Hlo Hhi].
    apply Z.leb_le in Hlo. apply Z.ltb_lt in Hhi.
    split; [| split]; intros; [reflexivity | lia | lia].
  - assert (Hok : ~ 400 <= status_code response < 600).
    { intros [Hlo Hhi]. apply Z.leb_le in Hlo. apply Z.ltb_lt in Hhi.
      rewrite Hlo, Hhi in Herr. discriminate Herr. }
    split; [intros; contradiction | split].
    + intros _ Hcase. cbn [fst].
      destruct (status_code response =? 204) eqn:H204; [reflexivity |].
      destruct Hcase as [Hcase | Hcase].
      * apply Z.eqb_neq in H204. contradiction.
      * apply truthy_false in Hcase. rewrite Hcase. reflexivity.
    + intros _ H204 Htext. cbn [fst].
      apply Z.eqb_neq in H204. apply truthy_true in Htext.
      rewrite H204, Htext. reflexivity.
Qed.

End Outcome.

Lemma make_request_outcome_witness :
  fst (_make_request Mock.scripted Mock.token_client "DELETE" "/api/test" None None
         (Mock.start [Mock.no_content])) = Ok (JObj ∅).
Proof.
  refine (proj1 (proj2 (make_request_outcome Mock.scripted Mock.token_client "DELETE"
                          "/api/test" None None (Mock.start [Mock.no_content])
                          Mock.no_content [] eq_refl)) _ _).
  - cbn. lia.
  - left. reflexivity.
Defined.

(** C7 as stated fails: a response with status 304, which is not a 2xx
    status, raises nothing; the call returns the empty mapping. *)
Lemma make_request_304_not_raised :
  ~ 200 <= status_code Mock.not_modified < 300 /\
  Mock.scripted
    {| req_method := "GET";
       req_url := "https://atlantis.example.com/api/test";
       req_params := None;
       req_json := None;
       req_auth := None;
       req_headers := headers Mock.token_client;
       req_verify := true;
       req_timeout := 30 |} [Mock.not_modified] = (Ok Mock.not_modified, []) /\
  fst (_make_request Mock.scripted Mock.token_client "GET" "/api/test" None None
         (Mock.start [Mock.not_modified])) = Ok (JObj ∅).
Proof.
  split; [cbn; lia |]. split; reflexivity.
Qed.

End AtlantisFacts.

(** ** The GitHub client *)

Section GitHubFacts.

Import GitHub.

Context {W : Type} (github : PyGithub W).

(** *** The two loops over tree entries *)

(** The loop that keeps the entries satisfying [P] appends one element for
    each, in their order: path, mode and type of the entry, and its hash as
    the content. *)
Lemma keep_loop (P : GitTreeElement -> Prop) `{!forall e, Decision (P e)}
    (entries : list GitTreeElement) (acc : list InputGitTreeElement) :
  fold_left
    (fun tree_elements element =>
       if bool_decide (P element)
       then tree_elements ++
              [InputGitTreeElement_ (path element) (mode element) (type element)
                 (Some (sha element)) None]
       else tree_elements)
    entries acc
  = acc ++ map resubmitted (filter P entries).
Proof.
  revert acc. induction entries as [|e rest IH]; intros acc; cbn [fold_left].
  - rewrite filter_nil. cbn. rewrite app_nil_r. reflexivity.
  - rewrite IH. destruct (decide (P e)) as [HP | HP].
    + rewrite bool_decide_true by exact HP. rewrite filter_cons_True by exact HP.
      cbn [map]. rewrite <- app_assoc. reflexivity.
    + rewrite bool_decide_false by exact HP. rewrite filter_cons_False by exact HP.
      reflexivity.
Qed.

(** The loop over the files creates one blob per item, in order, and
    appends one entry per item. *)
Lemma blob_loop (repository : Repository) (files : list (string * string))
    (acc : list InputGitTreeElement) (s : Recorded W Call) out s' :
  for_each files
    (fun '(file_path, content) tree_elements =>
       bind (perform (create_git_blob github repository content "utf-8")
               (CreateGitBlob repository content "utf-8"))
         (fun blob =>
            ret (tree_elements ++
                   [InputGitTreeElement_ file_path "100644" "blob"
                      (Some (blob_sha blob)) None])))
    acc s = (Ok out, s') ->
  exists blobs : list GitBlob,
    length blobs = length files /\
    out = acc ++ map updated (zip files blobs) /\
    calls s' = calls s ++ map (blob_created repository) (zip files blobs).
Proof.
  revert acc s. induction files as [|[file_path content] rest IH]; intros acc s.
  - cbn. intros [= <- <-]. exists []. rewrite !app_nil_r. auto.
  - cbn [for_each]. intros Hrun.
    apply bind_Ok_inv in Hrun as (acc' & s1 & Hstep & Hrest).
    apply bind_Ok_inv in Hstep as (blob & s0 & Hblob & Hret).
    apply perform_inv in Hblob as [_ Hcalls].
    injection Hret as <- <-.
    apply IH in Hrest as (blobs & Hlen & -> & Hcalls').
    exists (blob :: blobs). cbn [length zip_with map].
    split; [congruence |]. split.
    + rewrite <- app_assoc. reflexivity.
    + rewrite Hcalls', Hcalls, <- app_assoc. reflexivity.
Qed.

Lemma updated_paths (files : list (string * string)) (blobs : list GitBlob) :
  length blobs = length files ->
  map entry_path (map updated (zip files blobs)) = map fst files.
Proof.
  revert blobs. induction files as [|[p c] rest IH]; intros [|b blobs]; cbn;
    try discriminate; [reflexivity |].
  intros [= Hlen]. rewrite IH by exact Hlen. reflexivity.
Qed.

Lemma try_except_Ok_inv {A} (body : Eff (Recorded W Call) A) (f : PyExn -> PyExn) s a s' :
  try_except body (fun e => raise (f e)) s = (Ok a, s') -> body s = (Ok a, s').
Proof.
  unfold try_except, raise. destruct (body s) as [[a0 | e] s1]; [auto | discriminate].
Qed.

(** *** Branch creation and branch lookups *)

Ltac run_forward :=
  unfold create_branch, push_files_to_branch, push_to_pull_request,
    create_pull_request_comment, get_repository, bind, try_except, perform, raise, ret;
  cbv beta iota zeta.

Ltac answered H :=
  rewrite H; rewrite ?Z.eqb_refl;
  repeat (progress (cbv beta iota zeta; cbn [negb remote calls])).

(** C3: once the repository is resolved, [create_branch] first looks the
    target branch up and, if it resolves, raises a [ValueError] mentioning
    "already exists" without looking at the base branch; if that lookup
    fails with status 404 and the lookup of the base branch fails, it raises
    a different [ValueError], mentioning "not found"; if the base branch
    resolves and the reference is created, it has asked for the reference
    [refs/heads/<branch>] at the commit of the base branch and returns the
    branch, the base branch and that commit hash. *)
Theorem create_branch_outcomes (owner repo branch base_branch : string)
    (s : Recorded W Call) (repository : Repository) (w1 : W) :
  get_repo github (owner +:+ "/" +:+ repo) (remote s) = (Ok repository, w1) ->
  (forall target w2,
     get_git_ref github repository ("heads/" +:+ branch) w1 = (Ok target, w2) ->
     exists msg,
       create_branch github owner repo branch base_branch s =
       (Raise (ValueError msg),
        {| remote := w2;
           calls := calls s ++
             [ GetRepo (owner +:+ "/" +:+ repo) (Ok repository);
               GetGitRef repository ("heads/" +:+ branch) (Ok target) ] |}) /\
       mentions "already exists" msg) /\
  (forall text w2 e w3,
     get_git_ref github repository ("heads/" +:+ branch) w1
     = (Raise (GithubException 404 text), w2) ->
     get_git_ref github repository ("heads/" +:+ base_branch) w2 = (Raise e, w3) ->
     exists msg,
       create_branch github owner repo branch base_branch s =
       (Raise (ValueError msg),
        {| remote := w3;
           calls := calls s ++
             [ GetRepo (owner +:+ "/" +:+ repo) (Ok repository);
               GetGitRef repository ("heads/" +:+ branch)
                 (Raise (GithubException 404 text));
               GetGitRef repository ("heads/" +:+ base_branch) (Raise e) ] |}) /\
       mentions "not found" msg /\
       msg <> "Branch '" +:+ branch +:+ "' already exists") /\
  (forall text w2 base_ref w3 new_ref w4,
     get_git_ref github repository ("heads/" +:+ branch) w1
     = (Raise (GithubException 404 text), w2) ->
     get_git_ref github repository ("heads/" +:+ base_branch) w2 = (Ok base_ref, w3) ->
     create_git_ref github repository ("refs/heads/" +:+ branch) (object_sha base_ref) w3
     = (Ok new_ref, w4) ->
     create_branch github owner repo branch base_branch s =
     (Ok {[ "branch" := JStr branch;
            "base_branch" := JStr base_branch;
            "commit_sha" := JStr (object_sha base_ref) ]},
      {| remote := w4;
         calls := calls s ++
           [ GetRepo (owner +:+ "/" +:+ repo) (Ok repository);
             GetGitRef repository ("heads/" +:+ branch)
               (Raise (GithubException 404 text));
             GetGitRef repository ("heads/" +:+ base_branch) (Ok base_ref);
             CreateGitRef repository ("refs/heads/" +:+ branch) (object_sha base_ref)
               (Ok new_ref) ] |})).
Proof.
  intros Hrepo. split; [| split].
  - intros target w2 Htarget. eexists. split.
    + run_forward. answered Hrepo. answered Htarget.
      rewrite <- app_assoc. reflexivity.
    + exists ("Branch '" +:+ branch +:+ "' "), "".
      rewrite !append_assoc. reflexivity.
  - intros text w2 e w3 Htarget Hbase. eexists. split; [| split].
    + run_forward. answered Hrepo. answered Htarget. answered Hbase.
      rewrite <- !app_assoc. reflexivity.
    + exists ("Base branch '" +:+ base_branch +:+ "' "), (": " +:+ str e).
      rewrite !append_assoc. reflexivity.
    + discriminate.
  - intros text w2 base_ref w3 new_ref w4 Htarget Hbase Hcreate.
    run_forward. answered Hrepo. answered Htarget. answered Hbase. answered Hcreate.
    rewrite <- !app_assoc. reflexivity.
Qed.

(** C4, as the client has it: once the repository is resolved, when the
    lookup of the branch raises [e]:
    - the existence check of [create_branch] re-raises [e] unchanged unless
      [e] is a [GithubException] with status 404, and makes no further call;
    - [push_files_to_branch] raises a [ValueError] mentioning "not found"
      and carrying the text of [e], whatever [e] and its status are, and
      makes no further call;
    - [push_to_pull_request], which has no check, lets [e] through
      unchanged, status 404 included;
    and when the lookup of the base branch in [create_branch] raises [e],
    after a 404 for the target, a [ValueError] carrying the text of [e] is
    raised, whatever the status of [e] is. *)
Theorem branch_lookup_failures (owner repo branch : string) (s : Recorded W Call)
    (repository : Repository) (w1 : W) (e : PyExn) (w2 : W) :
  get_repo github (owner +:+ "/" +:+ repo) (remote s) = (Ok repository, w1) ->
  get_git_ref github repository ("heads/" +:+ branch) w1 = (Raise e, w2) ->
  let looked_up :=
    {| remote := w2;
       calls := calls s ++
         [ GetRepo (owner +:+ "/" +:+ repo) (Ok repository);
           GetGitRef repository ("heads/" +:+ branch) (Raise e) ] |} in
  (forall base_branch,
     (forall text, e <> GithubException 404 text) ->
     create_branch github owner repo branch base_branch s = (Raise e, looked_up)) /\
  (forall files message,
     push_files_to_branch github owner repo branch files message s =
     (Raise (ValueError ("Branch '" +:+ branch +:+ "' not found: " +:+ str e)),
      looked_up)) /\
  (forall file_path content message pr_number,
     push_to_pull_request github owner repo branch file_path content message pr_number s
     = (Raise e, looked_up)) /\
  (forall base_branch text e' w3,
     e = GithubException 404 text ->
     get_git_ref github repository ("heads/" +:+ base_branch) w2 = (Raise e', w3) ->
     fst (create_branch github owner repo branch base_branch s) =
     Raise (ValueError ("Base branch '" +:+ base_branch +:+ "' not found: " +:+ str e'))).
Proof.
  intros Hrepo Href looked_up. subst looked_up. split; [| split; [| split]].
  - intros base_branch Hnot404. run_forward. answered Hrepo. answered Href.
    rewrite <- app_assoc.
    destruct e as [msg | status text | status body | text | text | msg | msg];
      try reflexivity.
    destruct (status =? 404) eqn:Hstatus; [| reflexivity].
    apply Z.eqb_eq in Hstatus. subst status. destruct (Hnot404 text eq_refl).
  - intros files message. run_forward. answered Hrepo. answered Href.
    rewrite <- app_assoc. reflexivity.
  - intros file_path content message pr_number.
    run_forward. answered Hrepo. answered Href.
    rewrite <- app_assoc. reflexivity.
  - intros base_branch text e' w3 -> Hbase.
    run_forward. answered Hrepo. answered Href. answered Hbase. reflexivity.
Qed.

(** *** Comments *)

(** Once the repository and the pull request are resolved: with a commit
    id, a path (both non-empty) and a line number all given,
    [create_pull_request_comment] raises [TypeError] and makes no further
    call; with any of the three left out it makes one more call, the
    creation of an issue comment with the body, and returns what that call
    returns. *)
Lemma create_pull_request_comment_outcome (owner repo : string) (pr_number : Z)
    (body : string) (commit_id path : option string) (line : option Z)
    (side : option string) (s : Recorded W Call) (repository : Repository) (w1 : W)
    (pr : PullRequest) (w2 : W) :
  get_repo github (owner +:+ "/" +:+ repo) (remote s) = (Ok repository, w1) ->
  get_pull github repository pr_number w1 = (Ok pr, w2) ->
  (truthy_opt commit_id = true -> truthy_opt path = true -> line <> None ->
   exists msg,
     create_pull_request_comment github owner repo pr_number body commit_id path line
       side s =
     (Raise (TypeError msg),
      {| remote := w2;
         calls := calls s ++
           [ GetRepo (owner +:+ "/" +:+ repo) (Ok repository);
             GetPull repository pr_number (Ok pr) ] |})) /\
  (truthy_opt commit_id = false \/ truthy_opt path = false \/ line = None ->
   create_pull_request_comment github owner repo pr_number body commit_id path line
     side s =
   (fst (create_issue_comment github pr body w2),
    {| remote := snd (create_issue_comment github pr body w2);
       calls := calls s ++
         [ GetRepo (owner +:+ "/" +:+ repo) (Ok repository);
           GetPull repository pr_number (Ok pr);
           CreateIssueComment pr body (fst (create_issue_comment github pr body w2)) ] |})).
Proof.
  intros Hrepo Hpull. split.
  - intros Hc Hp Hline. eexists.
    run_forward. answered Hrepo. answered Hpull.
    rewrite Hc, Hp, bool_decide_true by exact Hline.
    cbn [andb]. cbv beta iota zeta. rewrite <- !app_assoc. reflexivity.
  - intros Hmissing. run_forward. answered Hrepo. answered Hpull.
    assert (Hcond : truthy_opt commit_id && truthy_opt path
                    && bool_decide (line <> None) = false).
    { destruct Hmissing as [-> | [-> | ->]].
      - reflexivity.
      - rewrite andb_false_r. reflexivity.
      - rewrite bool_decide_false by (intros H; apply H; reflexivity).
        apply andb_false_r. }
    rewrite Hcond. cbn [remote calls]. cbv beta iota zeta.
    destruct (create_issue_comment github pr body w2) as [r w3].
    cbn [fst snd remote calls]. rewrite <- !app_assoc. reflexivity.
Qed.

End GitHubFacts.

(** *** Runs on the in-memory host *)

Section GitHubRuns.

Import GitHub.

(** C2, where the client departs from it: pushing [src/new_file.py] to a
    branch whose tree holds [other_file.py].  The calls are the ones the
    claim lists (one blob, one tree, one commit on top of the old one, one
    edit of the reference to the new commit), but both entries of the
    submitted tree carry their hash as the fourth argument, which is the
    content of a new blob, and name no object: the kept entry is not kept
    with its hash and the new entry does not point at the blob that was
    created.  The tree that results holds two files whose text is a hash. *)
Theorem push_to_pull_request_sends_hash_as_content :
  let run :=
    push_to_pull_request Mock.host "octocat" "Hello-World" "main" "src/new_file.py"
      "# New file" "Add new file" (Some 1) (Mock.start Mock.one_file) in
  let repository := {| full_name := "octocat/Hello-World" |} in
  let ref := {| ref := "refs/heads/main"; object_sha := "commit_sha" |} in
  let commit := {| commit_sha := "commit_sha"; commit_tree_sha := "tree_sha" |} in
  let tree := {| tree_sha := "tree_sha"; tree := [Mock.other_file] |} in
  let new_tree :=
    {| tree_sha := "tree1";
       tree :=
         [ {| path := "other_file.py"; mode := "100644"; type := "blob";
              sha := "blob-of:old_sha" |};
           {| path := "src/new_file.py"; mode := "100644"; type := "blob";
              sha := "blob-of:blob0" |} ] |} in
  let new_commit := {| commit_sha := "commit2"; commit_tree_sha := "tree1" |} in
  fst run =
    Ok {[ "commit_sha" := JStr "commit2";
          "branch" := JStr "main";
          "file_path" := JStr "src/new_file.py";
          "message" := JStr "Add new file" ]} /\
  calls (snd run) =
    [ GetRepo "octocat/Hello-World" (Ok repository);
      GetGitRef repository "heads/main" (Ok ref);
      GetGitCommit repository "commit_sha" (Ok commit);
      GetGitTree repository "tree_sha" true (Ok tree);
      CreateGitBlob repository "# New file" "utf-8" (Ok {| blob_sha := "blob0" |});
      CreateGitTree repository
        [ InputGitTreeElement_ "other_file.py" "100644" "blob" (Some "old_sha") None;
          InputGitTreeElement_ "src/new_file.py" "100644" "blob" (Some "blob0") None ]
        tree (Ok new_tree);
      CreateGitCommit repository "Add new file" new_tree [commit] (Ok new_commit);
      Edit ref "commit2" (Ok tt) ].
Proof. split; vm_compute; reflexivity. Qed.

(** C1, where the client departs from it: pushing two files to a branch
    whose tree holds [other_file.py].  The kept entry and the two entries
    of the updated files are submitted with their hash as the fourth
    argument, which is the content of a new blob, and name no object: the
    kept entry does not keep its hash and the new entries do not point at
    the blobs created from the contents.  The [files] entry of the returned
    mapping does list the keys. *)
Theorem push_files_to_branch_sends_hash_as_content :
  let run :=
    push_files_to_branch Mock.host "octocat" "Hello-World" "main"
      [("file1.py", "content1"); ("file2.py", "content2")] "Add files"
      (Mock.start Mock.one_file) in
  let repository := {| full_name := "octocat/Hello-World" |} in
  let branch_ref := {| ref := "refs/heads/main"; object_sha := "commit_sha" |} in
  let commit := {| commit_sha := "commit_sha"; commit_tree_sha := "tree_sha" |} in
  let tree := {| tree_sha := "tree_sha"; tree := [Mock.other_file] |} in
  let new_tree :=
    {| tree_sha := "tree2";
       tree :=
         [ {| path := "other_file.py"; mode := "100644"; type := "blob";
              sha := "blob-of:old_sha" |};
           {| path := "file1.py"; mode := "100644"; type := "blob";
              sha := "blob-of:blob0" |};
           {| path := "file2.py"; mode := "100644"; type := "blob";
              sha := "blob-of:blob1" |} ] |} in
  let new_commit := {| commit_sha := "commit3"; commit_tree_sha := "tree2" |} in
  fst run =
    Ok {[ "commit_sha" := JStr "commit3";
          "branch" := JStr "main";
          "files" := JList [JStr "file1.py"; JStr "file2.py"];
          "message" := JStr "Add files" ]} /\
  calls (snd run) =
    [ GetRepo "octocat/Hello-World" (Ok repository);
      GetGitRef repository "heads/main" (Ok branch_ref);
      GetGitCommit repository "commit_sha" (Ok commit);
      GetGitTree repository "tree_sha" true (Ok tree);
      CreateGitBlob repository "content1" "utf-8" (Ok {| blob_sha := "blob0" |});
      CreateGitBlob repository "content2" "utf-8" (Ok {| blob_sha := "blob1" |});
      CreateGitTree repository
        [ InputGitTreeElement_ "other_file.py" "100644" "blob" (Some "old_sha") None;
          InputGitTreeElement_ "file1.py" "100644" "blob" (Some "blob0") None;
          InputGitTreeElement_ "file2.py" "100644" "blob" (Some "blob1") None ]
        tree (Ok new_tree);
      CreateGitCommit repository "Add files" new_tree [commit] (Ok new_commit);
      Edit branch_ref "commit3" (Ok tt) ].
Proof. split; vm_compute; reflexivity. Qed.

Lemma create_branch_outcomes_witness :
  (exists msg s',
     create_branch Mock.host "octocat" "Hello-World" "main" "main"
       (Mock.start Mock.one_file) = (Raise (ValueError msg), s') /\
     mentions "already exists" msg) /\
  (exists msg s',
     create_branch Mock.host "octocat" "Hello-World" "feature" "develop"
       (Mock.start Mock.one_file) = (Raise (ValueError msg), s') /\
     mentions "not found" msg) /\
  (exists s',
     create_branch Mock.host "octocat" "Hello-World" "feature" "main"
       (Mock.start Mock.one_file) =
     (Ok {[ "branch" := JStr "feature";
            "base_branch" := JStr "main";
            "commit_sha" := JStr "commit_sha" ]}, s')).
Proof.
  split; [| split].
  - destruct (proj1 (create_branch_outcomes Mock.host "octocat" "Hello-World" "main"
                       "main" (Mock.start Mock.one_file)
                       {| full_name := "octocat/Hello-World" |} Mock.one_file eq_refl)
                {| ref := "refs/heads/main"; object_sha := "commit_sha" |} Mock.one_file
                ltac:(vm_compute; reflexivity))
      as (msg & Hrun & Hmsg).
    exists msg. eexists. split; [exact Hrun | exact Hmsg].
  - destruct (proj1 (proj2 (create_branch_outcomes Mock.host "octocat" "Hello-World"
                              "feature" "develop" (Mock.start Mock.one_file)
                              {| full_name := "octocat/Hello-World" |} Mock.one_file
                              eq_refl))
                "404 Not Found" Mock.one_file (GithubException 404 "404 Not Found")
                Mock.one_file ltac:(vm_compute; reflexivity)
                ltac:(vm_compute; reflexivity))
      as (msg & Hrun & Hmsg & _).
    exists msg. eexists. split; [exact Hrun | exact Hmsg].
  - eexists.
    exact (proj2 (proj2 (create_branch_outcomes Mock.host "octocat" "Hello-World"
                           "feature" "main" (Mock.start Mock.one_file)
                           {| full_name := "octocat/Hello-World" |} Mock.one_file
                           eq_refl))
             "404 Not Found" Mock.one_file
             {| ref := "refs/heads/main"; object_sha := "commit_sha" |} Mock.one_file
             {| ref := "refs/heads/feature"; object_sha := "commit_sha" |}
             _ ltac:(vm_compute; reflexivity) ltac:(vm_compute; reflexivity)
             ltac:(vm_compute; reflexivity)).
Defined.

Lemma branch_lookup_failures_witness :
  fst (create_branch Mock.host "octocat" "Hello-World" "main" "main"
         (Mock.start Mock.one_file_down)) = Raise (GithubException 500 "Server Error") /\
  fst (push_files_to_branch Mock.host "octocat" "Hello-World" "main"
         [("file.py", "content")] "Add file" (Mock.start Mock.one_file_down))
  = Raise (ValueError "Branch 'main' not found: Server Error") /\
  fst (push_to_pull_request Mock.host "octocat" "Hello-World" "main" "file.py" "content"
         "Add file" None (Mock.start Mock.one_file_down))
  = Raise (GithubException 500 "Server Error").
Proof.
  destruct (branch_lookup_failures Mock.host "octocat" "Hello-World" "main"
              (Mock.start Mock.one_file_down) {| full_name := "octocat/Hello-World" |}
              Mock.one_file_down (GithubException 500 "Server Error") Mock.one_file_down
              eq_refl ltac:(vm_compute; reflexivity))
    as (Hcreate & Hfiles & Hpush & _).
  split; [| split].
  - rewrite (Hcreate "main" ltac:(discriminate)). reflexivity.
  - rewrite (Hfiles [("file.py", "content")] "Add file"). reflexivity.
  - rewrite (Hpush "file.py" "content" "Add file" None). reflexivity.
Defined.

(** C4 as stated fails: while the host answers with status 500, the branch
    lookup of [push_files_to_branch] raises a [GithubException] whose status
    is not 404, and the call raises a [ValueError] instead of it. *)
Lemma push_files_500_becomes_validation_error :
  get_git_ref Mock.host {| full_name := "octocat/Hello-World" |} "heads/main"
    Mock.one_file_down
  = (Raise (GithubException 500 "Server Error"), Mock.one_file_down) /\
  500 <> 404 /\
  fst (push_files_to_branch Mock.host "octocat" "Hello-World" "main"
         [("file.py", "content")] "Add file" (Mock.start Mock.one_file_down))
  = Raise (ValueError "Branch 'main' not found: Server Error") /\
  fst (push_files_to_branch Mock.host "octocat" "Hello-World" "main"
         [("file.py", "content")] "Add file" (Mock.start Mock.one_file_down))
  <> Raise (GithubException 500 "Server Error").
Proof.
  split; [vm_compute; reflexivity |]. split; [discriminate |].
  split; [vm_compute; reflexivity |]. vm_compute. discriminate.
Qed.

(** C8, where the client departs from it: with a commit id, a path and a
    line number all given, no review comment is created.  The repository
    and the pull request are looked up, and the call for the review comment
    raises [TypeError] before anything is sent; no comment of either kind is
    created. *)
Theorem create_pull_request_comment_review_raises :
  create_pull_request_comment Mock.host "octocat" "Hello-World" 1 "Fix this line"
    (Some "abc123") (Some "src/file.py") (Some 10) (Some "RIGHT")
    (Mock.start Mock.one_file) =
  (Raise (TypeError
            "PullRequest.create_review_comment() got an unexpected keyword argument 'commit_id'"),
   {| remote := Mock.one_file;
      calls :=
        [ GetRepo "octocat/Hello-World" (Ok {| full_name := "octocat/Hello-World" |});
          GetPull {| full_name := "octocat/Hello-World" |} 1 (Ok {| number := 1 |}) ] |}).
Proof. vm_compute. reflexivity. Qed.

End GitHubRuns.

(** ** Further properties of the git operations *)

Section GitHubFurther.

Import GitHub.

Context {W : Type} (github : PyGithub W).

Ltac forward_run :=
  unfold create_branch, push_files_to_branch, push_to_pull_request,
    create_pull_request_comment, get_repository, bind, try_except, perform, raise, ret;
  cbv beta iota zeta.

Ltac answer_with H :=
  rewrite H; rewrite ?Z.eqb_refl;
  repeat (progress (cbv beta iota zeta; cbn [negb remote calls])).

(** When the repository cannot be resolved, each operation raises the
    exception of the lookup unchanged, the checks of [create_branch] and
    [push_files_to_branch] included, and makes no other call. *)
Theorem repository_failure_propagates (owner repo : string) (s : Recorded W Call)
    (e : PyExn) (w1 : W) :
  get_repo github (owner +:+ "/" +:+ repo) (remote s) = (Raise e, w1) ->
  let failed :=
    {| remote := w1;
       calls := calls s ++ [GetRepo (owner +:+ "/" +:+ repo) (Raise e)] |} in
  (forall branch file_path content message pr_number,
     push_to_pull_request github owner repo branch file_path content message pr_number s
     = (Raise e, failed)) /\
  (forall branch base_branch,
     create_branch github owner repo branch base_branch s = (Raise e, failed)) /\
  (forall branch files message,
     push_files_to_branch github owner repo branch files message s = (Raise e, failed)) /\
  (forall pr_number body commit_id path line side,
     create_pull_request_comment github owner repo pr_number body commit_id path line
       side s = (Raise e, failed)).
Proof.
  intros Hrepo failed. subst failed.
  repeat split; intros; forward_run; answer_with Hrepo; reflexivity.
Qed.

(** *** A failed operation changes no reference *)

Lemma perform_calls {A} (f : W -> Result A * W) (entry : Result A -> Call) s r s' :
  perform f entry s = (r, s') -> calls s' = calls s ++ [entry r].
Proof. intros H. apply perform_inv in H as [_ H]. exact H. Qed.

(** The loop over the files only creates blobs, whether it ends or raises. *)
Lemma blob_loop_calls (repository : Repository) (files : list (string * string))
    (acc : list InputGitTreeElement) (s : Recorded W Call) r s' :
  for_each files
    (fun '(file_path, content) tree_elements =>
       bind (perform (create_git_blob github repository content "utf-8")
               (CreateGitBlob repository content "utf-8"))
         (fun blob =>
            ret (tree_elements ++
                   [InputGitTreeElement_ file_path "100644" "blob"
                      (Some (blob_sha blob)) None])))
    acc s = (r, s') ->
  exists new, calls s' = calls s ++ new /\
              forallb (fun c => negb (changes_ref c)) new = true.
Proof.
  revert acc s. induction files as [|[file_path content] rest IH]; intros acc s.
  - cbn. intros [= <- <-]. exists []. rewrite app_nil_r. auto.
  - cbn [for_each]. unfold bind at 1. unfold bind at 1.
    destruct (perform _ _ s) as [[blob | e0] s1] eqn:Hblob;
      apply perform_calls in Hblob.
    + unfold ret at 1. intros Hrest.
      apply IH in Hrest as (new & Hcalls & Hnone).
      exists (CreateGitBlob repository content "utf-8" (Ok blob) :: new).
      split; [rewrite Hcalls, Hblob, <- app_assoc; reflexivity | exact Hnone].
    + intros [= <- <-]. eexists. split; [exact Hblob | reflexivity].
Qed.

Ltac unchained :=
  repeat match goal with
         | H : calls ?x = _ |- context [calls ?x] => rewrite H; clear H
         end;
  rewrite <- ?app_assoc.

Ltac next_call H s1 :=
  match type of H with
  | context [match perform ?f ?en ?s0 with _ => _ end] =>
      let E := fresh "E" in
      destruct (perform f en s0) as [[? | ?] s1] eqn:E;
      apply perform_calls in E;
      [| injection H as <- <-; eexists; split; [unchained; reflexivity | reflexivity]]
  end.

(** An operation that raises has changed no reference: among the calls it
    made there is no reference edit and no reference creation that
    returned.  So a push that fails while creating a blob, a tree or a
    commit leaves the branch where it was, and a branch creation that fails
    creates nothing. *)
Theorem failure_changes_no_reference (owner repo branch : string)
    (s s' : Recorded W Call) (e : PyExn) :
  (forall file_path content message pr_number,
     push_to_pull_request github owner repo branch file_path content message pr_number s
     = (Raise e, s') ->
     exists new, calls s' = calls s ++ new /\
                 forallb (fun c => negb (changes_ref c)) new = true) /\
  (forall files message,
     push_files_to_branch github owner repo branch files message s = (Raise e, s') ->
     exists new, calls s' = calls s ++ new /\
                 forallb (fun c => negb (changes_ref c)) new = true) /\
  (forall base_branch,
     create_branch github owner repo branch base_branch s = (Raise e, s') ->
     exists new, calls s' = calls s ++ new /\
                 forallb (fun c => negb (changes_ref c)) new = true).
Proof.
  split; [| split].
  - intros file_path content message pr_number H.
    unfold push_to_pull_request, get_repository, bind in H.
    next_call H s1. next_call H s2. next_call H s3. next_call H s4.
    next_call H s5. next_call H s6. next_call H s7. next_call H s8.
    discriminate H.
  - intros files message H.
    unfold push_files_to_branch, get_repository, bind, try_except in H.
    next_call H s1.
    match type of H with
    | context [match perform ?f ?en ?s0 with _ => _ end] =>
        destruct (perform f en s0) as [[branch_ref | e0] s2] eqn:E2;
        apply perform_calls in E2
    end.
    2:{ unfold raise in H. injection H as <- <-.
        eexists. split; [unchained; reflexivity | reflexivity]. }
    next_call H s3. next_call H s4.
    match type of H with
    | context [match for_each ?fs ?st ?acc ?s0 with _ => _ end] =>
        destruct (for_each fs st acc s0) as [[tree_elements | e0] s5] eqn:E5;
        apply blob_loop_calls in E5 as (blobs & E5 & Hblobs)
    end.
    2:{ injection H as <- <-. eexists. split; [unchained; reflexivity |].
        cbn [app forallb changes_ref negb andb]. exact Hblobs. }
    assert (Hrest : exists rest, calls s' = calls s5 ++ rest /\
                      forallb (fun c => negb (changes_ref c)) rest = true).
    { clear E E0 E1 E2 E5.
      next_call H s6. next_call H s7. next_call H s8. discriminate H. }
    destruct Hrest as (rest & Hs' & Hnone).
    eexists. split; [rewrite Hs'; unchained; reflexivity |].
    cbn [app forallb changes_ref negb andb]. rewrite forallb_app, Hblobs, Hnone.
    reflexivity.
  - intros base_branch H.
    unfold create_branch, get_repository, bind, try_except in H.
    next_call H s1.
    match type of H with
    | context [match perform ?f ?en ?s0 with _ => _ end] =>
        destruct (perform f en s0) as [[target | e0] s2] eqn:E2;
        apply perform_calls in E2
    end.
    { unfold raise in H. injection H as <- <-.
      eexists. split; [unchained; reflexivity | reflexivity]. }
    assert (Hrest : exists rest, calls s' = calls s2 ++ rest /\
                      forallb (fun c => negb (changes_ref c)) rest = true).
    { clear E E2.
      destruct e0 as [msg | status text | status body | text | text | msg | msg];
        unfold raise, ret in H;
        try (injection H as <- <-; exists []; rewrite app_nil_r; auto).
      destruct (negb (status =? 404));
        [injection H as <- <-; exists []; rewrite app_nil_r; auto |].
      match type of H with
      | context [match perform ?f ?en ?s0 with _ => _ end] =>
          destruct (perform f en s0) as [[base_ref | e1] s3] eqn:E3;
          apply perform_calls in E3
      end.
      2:{ injection H as <- <-. eexists. split; [exact E3 | reflexivity]. }
      match type of H with
      | context [match perform ?f ?en ?s0 with _ => _ end] =>
          destruct (perform f en s0) as [[new_ref | e1] s4] eqn:E4;
          apply perform_calls in E4
      end.
      - discriminate H.
      - injection H as <- <-. eexists. split; [unchained; reflexivity | reflexivity]. }
    destruct Hrest as (rest & Hs' & Hnone).
    eexists. split; [rewrite Hs'; unchained; reflexivity |].
    cbn [app forallb changes_ref negb andb]. exact Hnone.
Qed.

(** *** What the submitted tree holds *)

Tactic Notation "call_step" hyp(H) "as" ident(a) ident(s1) ident(Hcall) ident(Hcalls) :=
  apply bind_Ok_inv in H as (a & s1 & Hcall & H); cbv beta in H;
  apply perform_inv in Hcall as [Hcall Hcalls].

Lemma state_eta (s : Recorded W Call) w l :
  remote s = w -> calls s = l -> s = {| remote := w; calls := l |}.
Proof. destruct s. cbn. intros -> ->. reflexivity. Qed.

(** A run of [push_to_pull_request] that returns, call by call. *)
Lemma push_to_pull_request_run
    (owner repo branch file_path content message : string) (pr_number : option Z)
    (s s' : Recorded W Call) (result : gmap string Json) :
  push_to_pull_request github owner repo branch file_path content message pr_number s
  = (Ok result, s') ->
  exists repository ref commit tree blob new_tree new_commit w1 w2 w3 w4 w5 w6 w7,
    get_repo github (owner +:+ "/" +:+ repo) (remote s) = (Ok repository, w1) /\
    get_git_ref github repository ("heads/" +:+ branch) w1 = (Ok ref, w2) /\
    get_git_commit github repository (object_sha ref) w2 = (Ok commit, w3) /\
    get_git_tree github repository (commit_tree_sha commit) true w3 = (Ok tree, w4) /\
    create_git_blob github repository content "utf-8" w4 = (Ok blob, w5) /\
    create_git_tree github repository
      (map resubmitted (filter (fun e => path e <> file_path) (GitHub.tree tree)) ++
       [InputGitTreeElement_ file_path "100644" "blob" (Some (blob_sha blob)) None])
      tree w5 = (Ok new_tree, w6) /\
    create_git_commit github repository message new_tree [commit] w6
    = (Ok new_commit, w7) /\
    edit github ref (commit_sha new_commit) w7 = (Ok tt, remote s') /\
    calls s' =
      calls s ++
      [ GetRepo (owner +:+ "/" +:+ repo) (Ok repository);
        GetGitRef repository ("heads/" +:+ branch) (Ok ref);
        GetGitCommit repository (object_sha ref) (Ok commit);
        GetGitTree repository (commit_tree_sha commit) true (Ok tree);
        CreateGitBlob repository content "utf-8" (Ok blob);
        CreateGitTree repository
          (map resubmitted (filter (fun e => path e <> file_path) (GitHub.tree tree)) ++
           [InputGitTreeElement_ file_path "100644" "blob" (Some (blob_sha blob)) None])
          tree (Ok new_tree);
        CreateGitCommit repository message new_tree [commit] (Ok new_commit);
        Edit ref (commit_sha new_commit) (Ok tt) ] /\
    result !! "commit_sha" = Some (JStr (commit_sha new_commit)).
Proof.
  unfold push_to_pull_request, get_repository. intros H.
  call_step H as repository s1 H1 C1.
  call_step H as ref s2 H2 C2.
  call_step H as commit s3 H3 C3.
  call_step H as tree s4 H4 C4.
  call_step H as blob s5 H5 C5.
  rewrite (keep_loop (fun e => path e <> file_path)), app_nil_l in H.
  call_step H as new_tree s6 H6 C6.
  call_step H as new_commit s7 H7 C7.
  apply bind_Ok_inv in H as ([] & s8 & H8 & H). apply perform_inv in H8 as [H8 C8].
  injection H as <- <-.
  exists repository, ref, commit, tree, blob, new_tree, new_commit.
  exists (remote s1), (remote s2), (remote s3), (remote s4), (remote s5), (remote s6),
    (remote s7).
  repeat (split; [assumption |]). split; [| reflexivity].
  rewrite C8, C7, C6, C5, C4, C3, C2, C1. rewrite <- !app_assoc. reflexivity.
Qed.

(** A run of [push_files_to_branch] that returns: the calls before the
    loop over the files, the loop, and the calls after it. *)
Lemma push_files_to_branch_run
    (owner repo branch : string) (files : list (string * string)) (message : string)
    (s s' : Recorded W Call) (result : gmap string Json) :
  push_files_to_branch github owner repo branch files message s = (Ok result, s') ->
  exists repository branch_ref commit tree blobs new_tree new_commit,
    length blobs = length files /\
    calls s' =
      calls s ++
      [ GetRepo (owner +:+ "/" +:+ repo) (Ok repository);
        GetGitRef repository ("heads/" +:+ branch) (Ok branch_ref);
        GetGitCommit repository (object_sha branch_ref) (Ok commit);
        GetGitTree repository (commit_tree_sha commit) true (Ok tree) ] ++
      map (blob_created repository) (zip files blobs) ++
      [ CreateGitTree repository
          (map resubmitted
             (filter (fun e => path e ∉ map fst files) (GitHub.tree tree)) ++
           map updated (zip files blobs))
          tree (Ok new_tree);
        CreateGitCommit repository message new_tree [commit] (Ok new_commit);
        Edit branch_ref (commit_sha new_commit) (Ok tt) ].
Proof.
  unfold push_files_to_branch, get_repository. intros H.
  call_step H as repository s1 H1 C1.
  apply bind_Ok_inv in H as (branch_ref & s2 & H2 & H); cbv beta in H.
  apply try_except_Ok_inv in H2. apply perform_inv in H2 as [H2 C2].
  call_step H as commit s3 H3 C3.
  call_step H as tree s4 H4 C4.
  apply bind_Ok_inv in H as (tree_elements & s5 & H5 & H); cbv beta in H.
  apply blob_loop in H5 as (blobs & Hlen & -> & C5).
  call_step H as new_tree s6 H6 C6.
  call_step H as new_commit s7 H7 C7.
  apply bind_Ok_inv in H as ([] & s8 & H8 & H). apply perform_inv in H8 as [H8 C8].
  injection H as <- <-.
  exists repository, branch_ref, commit, tree, blobs, new_tree, new_commit.
  split; [exact Hlen |].
  rewrite C8, C7, C6, C5, C4, C3, C2, C1.
  rewrite (keep_loop (fun e => path e ∉ (list_to_set (map fst files) : gset string))).
  rewrite app_nil_l.
  rewrite (list_filter_iff (fun e => path e ∉ (list_to_set (map fst files) : gset string))
             (fun e => path e ∉ map fst files))
    by (intros e; rewrite elem_of_list_to_set; reflexivity).
  rewrite <- !app_assoc. reflexivity.
Qed.


Lemma blob_created_not_lookup repository items repository' sha recursive r :
  ~ In (GetGitTree repository' sha recursive r) (map (blob_created repository) items).
Proof.
  intros Hin. apply in_map_iff in Hin as (item & Heq & _). discriminate Heq.
Qed.





(** Neither push drops a path: every entry of the tree that was read has an
    entry at its path in the tree that is submitted, and the tree that was
    read is the base of the one submitted. *)
Theorem push_keeps_every_path (owner repo branch message : string)
    (s s' : Recorded W Call) (result : gmap string Json) :
  (exists file_path content pr_number,
     push_to_pull_request github owner repo branch file_path content message pr_number s
     = (Ok result, s')) \/
  (exists files,
     push_files_to_branch github owner repo branch files message s = (Ok result, s')) ->
  exists repository sha tree tree_elements new_tree before after,
    calls s' =
      calls s ++ before ++
      [CreateGitTree repository tree_elements tree (Ok new_tree)] ++ after /\
    In (GetGitTree repository sha true (Ok tree)) before /\
    forall element, In element (GitHub.tree tree) ->
      exists entry, In entry tree_elements /\ entry_path entry = path element.
Proof.
  intros [(file_path & content & pr_number & H) | [files H]].
  - apply push_to_pull_request_run in H
      as (repository & ref & commit & tree & blob & new_tree & new_commit
          & w1 & w2 & w3 & w4 & w5 & w6 & w7 & _ & _ & _ & _ & _ & _ & _ & _ & Hcalls & _).
    exists repository, (commit_tree_sha commit), tree. do 2 eexists.
    eexists [_; _; _; _; _], [_; _].
    split; [exact Hcalls |]. split; [cbn; tauto |].
    intros element Hin. destruct (decide (path element = file_path)) as [Hp | Hp].
    + eexists. split; [apply in_or_app; right; left; reflexivity | cbn; congruence].
    + exists (resubmitted element). split; [| reflexivity].
      apply in_or_app. left. apply in_map.
      apply list_elem_of_In, list_elem_of_filter. split; [exact Hp |].
      apply list_elem_of_In. exact Hin.
  - apply push_files_to_branch_run in H
      as (repository & branch_ref & commit & tree & blobs & new_tree & new_commit
          & Hlen & Hcalls).
    exists repository, (commit_tree_sha commit), tree. do 2 eexists.
    eexists ([_; _; _; _] ++ map (blob_created repository) (zip files blobs)), [_; _].
    split; [rewrite Hcalls, <- !app_assoc; reflexivity |].
    split; [apply in_or_app; left; cbn; tauto |].
    intros element Hin. destruct (decide (path element ∈ map fst files)) as [Hp | Hp].
    + apply list_elem_of_In in Hp.
      rewrite <- (updated_paths files blobs Hlen) in Hp.
      apply in_map_iff in Hp as (entry & Hpath & Hentry).
      exists entry. split; [apply in_or_app; right; exact Hentry | exact Hpath].
    + exists (resubmitted element). split; [| reflexivity].
      apply in_or_app. left. apply in_map.
      apply list_elem_of_In, list_elem_of_filter. split; [exact Hp |].
      apply list_elem_of_In. exact Hin.
Qed.

Lemma filter_no_key (entries : list GitTreeElement) :
  filter (fun e : GitTreeElement => path e ∉ @nil string) entries = entries.
Proof.
  induction entries as [|e rest IH]; [reflexivity |].
  rewrite filter_cons_True by apply not_elem_of_nil. rewrite IH. reflexivity.
Qed.

(** With an empty dictionary, [push_files_to_branch] creates no blob; it
    still submits one element for every entry of the current tree, in
    order, with the path, mode and type of the entry and its hash as the
    content argument, creates a commit on top of the branch and moves the
    branch to it. *)
Theorem push_no_files_still_commits (owner repo branch message : string)
    (s s' : Recorded W Call) (result : gmap string Json) :
  push_files_to_branch github owner repo branch [] message s = (Ok result, s') ->
  exists repository branch_ref commit tree new_tree new_commit,
    calls s' =
      calls s ++
      [ GetRepo (owner +:+ "/" +:+ repo) (Ok repository);
        GetGitRef repository ("heads/" +:+ branch) (Ok branch_ref);
        GetGitCommit repository (object_sha branch_ref) (Ok commit);
        GetGitTree repository (commit_tree_sha commit) true (Ok tree);
        CreateGitTree repository (map resubmitted (GitHub.tree tree)) tree (Ok new_tree);
        CreateGitCommit repository message new_tree [commit] (Ok new_commit);
        Edit branch_ref (commit_sha new_commit) (Ok tt) ].
Proof.
  intros H. apply push_files_to_branch_run in H
    as (repository & branch_ref & commit & tree & blobs & new_tree & new_commit
        & Hlen & Hcalls).
  destruct blobs; [| discriminate Hlen].
  exists repository, branch_ref, commit, tree, new_tree, new_commit.
  rewrite Hcalls. cbn [map fst zip_with app]. rewrite app_nil_r.
  rewrite filter_no_key. reflexivity.
Qed.

(** Pushing one file through [push_files_to_branch] is the remote
    interaction of [push_to_pull_request]: whenever the latter returns, the
    former, given the dictionary of that one file, returns from the same
    state, having made the same calls with the same outcomes and leaving the
    same remote state, and reports the same commit. *)
Theorem push_one_file_either_way
    (owner repo branch file_path content message : string) (pr_number : option Z)
    (s s' : Recorded W Call) (result : gmap string Json) :
  push_to_pull_request github owner repo branch file_path content message pr_number s
  = (Ok result, s') ->
  exists result',
    push_files_to_branch github owner repo branch [(file_path, content)] message s
    = (Ok result', s') /\
    result' !! "commit_sha" = result !! "commit_sha" /\
    result' !! "files" = Some (JList [JStr file_path]).
Proof.
  intros H. apply push_to_pull_request_run in H
    as (repository & ref & commit & tree & blob & new_tree & new_commit
        & w1 & w2 & w3 & w4 & w5 & w6 & w7
        & H1 & H2 & H3 & H4 & H5 & H6 & H7 & H8 & Hcalls & Hresult).
  eexists. split; [| split].
  - forward_run.
    answer_with H1. answer_with H2. answer_with H3. answer_with H4.
    rewrite (keep_loop (fun e => path e ∉ (list_to_set (map fst [(file_path, content)])
                                           : gset string))).
    rewrite (list_filter_iff
               (fun e => path e ∉ (list_to_set (map fst [(file_path, content)])
                                   : gset string))
               (fun e => path e <> file_path))
      by (intros e; cbn [map fst]; rewrite elem_of_list_to_set, list_elem_of_singleton;
          reflexivity).
    cbn [for_each]. forward_run. cbn [remote calls]. answer_with H5.
    rewrite app_nil_l. answer_with H6. answer_with H7. answer_with H8.
    f_equal. symmetry. apply state_eta; [reflexivity |].
    rewrite Hcalls, <- !app_assoc. reflexivity.
  - rewrite Hresult. reflexivity.
  - reflexivity.
Qed.

End GitHubFurther.

(** *** Runs on the in-memory host *)

Section GitHubFurtherRuns.

Import GitHub.

Lemma repository_failure_propagates_witness :
  push_files_to_branch Mock.denied "octocat" "Hello-World" "main"
    [("file.py", "content")] "Add file" (Mock.start tt)
  = (Raise (GithubException 401 "Bad credentials"),
     {| remote := tt;
        calls := [] ++ [GetRepo "octocat/Hello-World"
                          (Raise (GithubException 401 "Bad credentials"))] |}).
Proof.
  exact (proj1 (proj2 (proj2 (repository_failure_propagates Mock.denied "octocat"
                                "Hello-World" (Mock.start tt)
                                (GithubException 401 "Bad credentials") tt eq_refl)))
           "main" [("file.py", "content")] "Add file").
Defined.

Lemma failure_changes_no_reference_witness :
  exists e s',
    push_to_pull_request Mock.read_only "octocat" "Hello-World" "main" "src/new_file.py"
      "# New file" "Add new file" None (Mock.start Mock.one_file) = (Raise e, s') /\
    exists new, calls s' = [] ++ new /\
                forallb (fun c => negb (changes_ref c)) new = true.
Proof.
  pose (run := push_to_pull_request Mock.read_only "octocat" "Hello-World" "main"
                 "src/new_file.py" "# New file" "Add new file" None
                 (Mock.start Mock.one_file)).
  assert (Hrun : run = (Raise (match fst run with Raise e => e | Ok _ => ValueError "" end),
                        snd run))
    by (vm_compute; reflexivity).
  exists (match fst run with Raise e => e | Ok _ => ValueError "" end), (snd run).
  split; [exact Hrun |].
  exact (proj1 (failure_changes_no_reference Mock.read_only "octocat" "Hello-World" "main"
                  (Mock.start Mock.one_file) _ _)
           "src/new_file.py" "# New file" "Add new file" None Hrun).
Defined.



Lemma push_keeps_every_path_witness :
  exists result s' repository sha tree tree_elements new_tree before after,
    push_files_to_branch Mock.host "octocat" "Hello-World" "main"
      [("file1.py", "content1")] "Add files" (Mock.start Mock.one_file)
    = (Ok result, s') /\
    calls s' =
      [] ++ before ++ [CreateGitTree repository tree_elements tree (Ok new_tree)] ++ after /\
    In (GetGitTree repository sha true (Ok tree)) before /\
    forall element, In element (GitHub.tree tree) ->
      exists entry, In entry tree_elements /\ entry_path entry = path element.
Proof.
  pose (run := push_files_to_branch Mock.host "octocat" "Hello-World" "main"
                 [("file1.py", "content1")] "Add files" (Mock.start Mock.one_file)).
  assert (Hrun : run = (Ok (match fst run with Ok r => r | Raise _ => ∅ end), snd run))
    by (vm_compute; reflexivity).
  destruct (push_keeps_every_path Mock.host "octocat" "Hello-World" "main" "Add files"
              (Mock.start Mock.one_file) _ _
              (or_intror (ex_intro _ [("file1.py", "content1")] Hrun)))
    as (repository & sha & tree & tree_elements & new_tree & before & after & Hkept).
  exists (match fst run with Ok r => r | Raise _ => ∅ end), (snd run).
  exists repository, sha, tree, tree_elements, new_tree, before, after.
  split; [exact Hrun | exact Hkept].
Defined.

Lemma push_no_files_still_commits_witness :
  exists result s',
    push_files_to_branch Mock.host "octocat" "Hello-World" "main" [] "Empty"
      (Mock.start Mock.one_file) = (Ok result, s') /\
    exists repository branch_ref commit tree new_tree new_commit,
      calls s' =
        [] ++
        [ GetRepo "octocat/Hello-World" (Ok repository);
          GetGitRef repository "heads/main" (Ok branch_ref);
          GetGitCommit repository (object_sha branch_ref) (Ok commit);
          GetGitTree repository (commit_tree_sha commit) true (Ok tree);
          CreateGitTree repository (map resubmitted (GitHub.tree tree)) tree (Ok new_tree);
          CreateGitCommit repository "Empty" new_tree [commit] (Ok new_commit);
          Edit branch_ref (commit_sha new_commit) (Ok tt) ].
Proof.
  pose (run := push_files_to_branch Mock.host "octocat" "Hello-World" "main" [] "Empty"
                 (Mock.start Mock.one_file)).
  assert (Hrun : run = (Ok (match fst run with Ok r => r | Raise _ => ∅ end), snd run))
    by (vm_compute; reflexivity).
  exists (match fst run with Ok r => r | Raise _ => ∅ end), (snd run).
  split; [exact Hrun |].
  exact (push_no_files_still_commits Mock.host "octocat" "Hello-World" "main" "Empty"
           (Mock.start Mock.one_file) _ _ Hrun).
Defined.

Lemma push_one_file_either_way_witness :
  exists result s' result',
    push_to_pull_request Mock.host "octocat" "Hello-World" "main" "src/new_file.py"
      "# New file" "Add new file" None (Mock.start Mock.one_file) = (Ok result, s') /\
    push_files_to_branch Mock.host "octocat" "Hello-World" "main"
      [("src/new_file.py", "# New file")] "Add new file" (Mock.start Mock.one_file)
    = (Ok result', s') /\
    result' !! "commit_sha" = result !! "commit_sha" /\
    result' !! "files" = Some (JList [JStr "src/new_file.py"]).
Proof.
  pose (run := push_to_pull_request Mock.host "octocat" "Hello-World" "main"
                 "src/new_file.py" "# New file" "Add new file" None
                 (Mock.start Mock.one_file)).
  assert (Hrun : run = (Ok (match fst run with Ok r => r | Raise _ => ∅ end), snd run))
    by (vm_compute; reflexivity).
  destruct (push_one_file_either_way Mock.host "octocat" "Hello-World" "main"
              "src/new_file.py" "# New file" "Add new file" None
              (Mock.start Mock.one_file) _ _ Hrun) as (result' & Hfiles).
  exists (match fst run with Ok r => r | Raise _ => ∅ end), (snd run), result'.
  split; [exact Hrun | exact Hfiles].
Defined.

End GitHubFurtherRuns.

(** ** Further properties of the Atlantis client *)

Section AtlantisFurther.

Import Atlantis.

Lemma rstrip_only_slashes n : rstrip "/" (slashes n) = "".
Proof.
  induction n as [|n IH]; [reflexivity |].
  cbn [slashes rstrip]. rewrite IH. reflexivity.
Qed.

(** A token takes precedence: with a non-empty endpoint and a non-empty
    token, whatever username and password come with it, the client has the
    two token headers and nothing else, no basic credentials, and every
    request it sends carries exactly that. *)
Theorem init_token_takes_precedence (base_url : string)
    (username password : option string) (tok : string) (verify_ssl : bool)
    (timeout : Z) :
  base_url <> "" -> tok <> "" ->
  exists self,
    __init__ base_url username password (Some tok) verify_ssl timeout = Ok self /\
    auth self = None /\
    headers self = {[ "X-Atlantis-Token" := tok; "Authorization" := "Bearer " +:+ tok ]} /\
    forall (W : Type) (requests_request : Request -> W -> Result Response * W)
           method endpoint params json_data s,
    exists request,
      calls (snd (_make_request requests_request self method endpoint params json_data s))
      = calls s ++ [request] /\
      req_auth request = None /\
      req_headers request !! "X-Atlantis-Token" = Some tok /\
      req_headers request !! "Authorization" = Some ("Bearer " +:+ tok).
Proof.
  intros Hurl Htok. apply truthy_true in Hurl. apply truthy_true in Htok.
  eexists. split.
  - unfold __init__. rewrite Hurl. cbn [truthy_opt negb]. rewrite Htok.
    rewrite !andb_false_r. reflexivity.
  - cbn [auth headers]. split; [reflexivity |]. split.
    + cbn [default from_option id]. apply map_eq. intros k.
      destruct (decide (k = "Authorization")) as [-> | Hk]; [reflexivity |].
      destruct (decide (k = "X-Atlantis-Token")) as [-> | Hk']; [reflexivity |].
      rewrite !lookup_insert_ne by congruence.
      rewrite lookup_singleton_ne by congruence. reflexivity.
    + intros W requests_request method endpoint params json_data s.
      eexists. rewrite make_request_sends. split; [reflexivity |].
      cbn [req_auth req_headers auth headers default from_option id].
      split; [reflexivity |]. split; [| apply lookup_insert_eq].
      rewrite lookup_insert_ne by discriminate. apply lookup_insert_eq.
Qed.

(** An endpoint made of slashes only is not empty, so it is accepted, and
    it is stored as the empty string: the URL of every request is then the
    bare path. *)
Theorem init_endpoint_of_slashes (n : nat) (username password token : option string)
    (verify_ssl : bool) (timeout : Z) :
  (0 < n)%nat ->
  truthy_opt username || truthy_opt password || truthy_opt token = true ->
  exists self,
    __init__ (slashes n) username password token verify_ssl timeout = Ok self /\
    Atlantis.base_url self = "" /\
    forall (W : Type) (requests_request : Request -> W -> Result Response * W)
           method endpoint params json_data s,
    exists request,
      calls (snd (_make_request requests_request self method endpoint params json_data s))
      = calls s ++ [request] /\
      req_url request = endpoint.
Proof.
  intros Hn Hcred.
  assert (Hurl : slashes n <> "") by (destruct n; [lia | discriminate]).
  destruct (init_succeeds (slashes n) username password token verify_ssl timeout
              Hurl Hcred) as [self Hself].
  pose proof (init_Ok_base_url _ _ _ _ _ _ _ Hself) as Hbase.
  rewrite rstrip_only_slashes in Hbase.
  exists self. split; [exact Hself |]. split; [exact Hbase |].
  intros W requests_request method endpoint params json_data s.
  eexists. rewrite make_request_sends, Hbase. split; reflexivity.
Qed.

Section Requests.

Context {W : Type} (requests_request : Request -> W -> Result Response * W).

(** What [_make_request] does with the response it is handed. *)
Lemma make_request_answered self method endpoint params json_data s response w' :
  (forall request, requests_request request (remote s) = (Ok response, w')) ->
  fst (_make_request requests_request self method endpoint params json_data s) =
  if (400 <=? status_code response) && (status_code response <? 600)
  then Raise (HTTPError (status_code response) (text response))
  else if (status_code response =? 204) || negb (truthy (text response))
       then Ok (JObj ∅)
       else json response.
Proof.
  intros Hsend. unfold _make_request.
  rewrite (bind_Ok _ _ _ _ _ (perform_eq _ _ _ _ _ (Hsend _))).
  unfold bind, raise_for_status, raise, ret, lift.
  destruct ((400 <=? status_code response) && (status_code response <? 600));
    [reflexivity |].
  destruct ((status_code response =? 204) || negb (truthy (text response)));
    reflexivity.
Qed.

(** An exception of the transport comes out of [_make_request] unchanged,
    after the one request that was sent: nothing is retried and nothing is
    read of a response. *)
Theorem make_request_transport_failure (self : AtlantisService)
    (method endpoint : string) (params json_data : option (gmap string Json))
    (s : Recorded W Request) (e : PyExn) (w' : W) :
  (forall request, requests_request request (remote s) = (Raise e, w')) ->
  exists request,
    _make_request requests_request self method endpoint params json_data s =
    (Raise e, {| remote := w'; calls := calls s ++ [request] |}) /\
    req_method request = method /\
    req_url request = Atlantis.base_url self +:+ endpoint.
Proof.
  intros Hsend. eexists. split.
  - unfold _make_request.
    rewrite (bind_Raise _ _ _ _ _ (perform_eq _ _ _ _ _ (Hsend _))). reflexivity.
  - split; reflexivity.
Qed.

Lemma unwrap_fst {S} key (request : Eff S Json) s :
  fst (unwrap key request s) =
  match fst (request s) with
  | Ok response => get_or_empty response key
  | Raise e => inl (Exn e)
  end.
Proof. unfold unwrap. destruct (request s) as [[response | e] s']; reflexivity. Qed.

Lemma unwrap_snd {S} key (request : Eff S Json) s :
  snd (unwrap key request s) = snd (request s).
Proof. unfold unwrap. destruct (request s) as [[response | e] s']; reflexivity. Qed.

(** When the server answers without a body (status 204, or an empty body
    under a status that is not an error), the three listing operations
    return the empty list and the other reading operations the empty
    mapping. *)
Theorem no_body_reads_as_empty (self : AtlantisService) (s : Recorded W Request)
    (response : Response) (w' : W) :
  (forall request, requests_request request (remote s) = (Ok response, w')) ->
  ~ 400 <= status_code response < 600 ->
  status_code response = 204 \/ text response = "" ->
  fst (get_projects requests_request self s) = inr (JList []) /\
  (forall repo, fst (get_locks requests_request self repo s) = inr (JList [])) /\
  (forall limit, fst (get_events requests_request self limit s) = inr (JList [])) /\
  (forall repo project branch,
     fst (get_project requests_request self repo project branch s) = Ok (JObj ∅)) /\
  (forall repo project branch,
     fst (get_project_status requests_request self repo project branch s) = Ok (JObj ∅)) /\
  (forall lock_id repo project,
     fst (delete_lock requests_request self lock_id repo project s) = Ok (JObj ∅)) /\
  fst (get_version requests_request self s) = Ok (JObj ∅) /\
  fst (get_health requests_request self s) = Ok (JObj ∅).
Proof.
  intros Hsend Hok Hempty.
  assert (Hany : forall method endpoint params json_data,
            fst (_make_request requests_request self method endpoint params json_data s)
            = Ok (JObj ∅)).
  { intros. rewrite (make_request_answered _ _ _ _ _ _ _ _ Hsend).
    destruct ((400 <=? status_code response) && (status_code response <? 600)) eqn:Herr.
    - apply andb_true_iff in Herr as [Hlo Hhi].
      apply Z.leb_le in Hlo. apply Z.ltb_lt in Hhi. lia.
    - destruct Hempty as [-> | ->]; [reflexivity |].
      rewrite orb_true_r. reflexivity. }
  unfold get_projects, get_locks, get_events, get_project, get_project_status,
    delete_lock, get_version, get_health.
  repeat split; intros; rewrite ?unwrap_fst, Hany; reflexivity.
Qed.

(** When the server answers with a JSON body, a listing operation returns
    the value its key is bound to, the empty list when the body is an
    object without that key, and raises [AttributeError] when the body is
    not an object; an exception of the decoder comes out unchanged. *)
Theorem listing_reads_its_key (self : AtlantisService) (s : Recorded W Request)
    (response : Response) (w' : W) :
  (forall request, requests_request request (remote s) = (Ok response, w')) ->
  ~ 400 <= status_code response < 600 ->
  status_code response <> 204 -> text response <> "" ->
  (forall m,
     json response = Ok (JObj m) ->
     fst (get_projects requests_request self s) = inr (default (JList []) (m !! "projects")) /\
     (forall repo,
        fst (get_locks requests_request self repo s)
        = inr (default (JList []) (m !! "locks"))) /\
     (forall limit,
        fst (get_events requests_request self limit s)
        = inr (default (JList []) (m !! "events")))) /\
  (forall body,
     json response = Ok body -> (forall m, body <> JObj m) ->
     fst (get_projects requests_request self s) = inl (AttributeError body) /\
     (forall repo,
        fst (get_locks requests_request self repo s) = inl (AttributeError body)) /\
     (forall limit,
        fst (get_events requests_request self limit s) = inl (AttributeError body))) /\
  (forall e,
     json response = Raise e ->
     fst (get_projects requests_request self s) = inl (Exn e) /\
     (forall repo, fst (get_locks requests_request self repo s) = inl (Exn e)) /\
     (forall limit, fst (get_events requests_request self limit s) = inl (Exn e))).
Proof.
  intros Hsend Hok H204 Htext.
  assert (Hany : forall method endpoint params json_data,
            fst (_make_request requests_request self method endpoint params json_data s)
            = json response).
  { intros. rewrite (make_request_answered _ _ _ _ _ _ _ _ Hsend).
    destruct ((400 <=? status_code response) && (status_code response <? 600)) eqn:Herr.
    - apply andb_true_iff in Herr as [Hlo Hhi].
      apply Z.leb_le in Hlo. apply Z.ltb_lt in Hhi. lia.
    - apply Z.eqb_neq in H204. apply truthy_true in Htext.
      rewrite H204, Htext. reflexivity. }
  unfold get_projects, get_locks, get_events.
  split; [| split].
  - intros m Hjson. repeat split; intros; rewrite unwrap_fst, Hany, Hjson; reflexivity.
  - intros body Hjson Hbody.
    assert (Hget : forall key, get_or_empty body key = inl (AttributeError body)).
    { intros key. destruct body; try reflexivity. destruct (Hbody m eq_refl). }
    repeat split; intros; rewrite unwrap_fst, Hany, Hjson; apply Hget.
  - intros e Hjson. repeat split; intros; rewrite unwrap_fst, Hany, Hjson; reflexivity.
Qed.

End Requests.

End AtlantisFurther.

(** *** Query parameters *)

Section AtlantisQueries.

Import Atlantis.

Context {W : Type} (requests_request : Request -> W -> Result Response * W).

Lemma optional_binding (key : string) (o : option string) (params : gmap string Json) :
  params !! key = None ->
  (if truthy_opt o then <[key := JStr (default "" o)]> params else params) !! key
  = JStr <$> given o.
Proof.
  intros Hfree. unfold given. destruct (truthy_opt o) eqn:Ho.
  - destruct o as [v|]; [| discriminate Ho]. apply lookup_insert_eq.
  - exact Hfree.
Qed.

Lemma optional_other (key k : string) (o : option string) (params : gmap string Json) :
  k <> key ->
  (if truthy_opt o then <[key := JStr (default "" o)]> params else params) !! k
  = params !! k.
Proof.
  intros Hk. destruct (truthy_opt o); [| reflexivity].
  apply lookup_insert_ne. congruence.
Qed.

(** [get_project], [get_project_status] and [delete_lock] each send one
    request without a JSON body whose query holds the required argument,
    each optional argument exactly when it is given and not empty, and
    nothing else. *)
Theorem project_queries (self : AtlantisService) (repo lock_id : string)
    (project branch lock_repo : option string) (s : Recorded W Request) :
  (exists request params,
     calls (snd (get_project requests_request self repo project branch s))
     = calls s ++ [request] /\
     req_method request = "GET" /\
     req_url request = Atlantis.base_url self +:+ "/api/project" /\
     req_json request = None /\
     req_params request = Some params /\
     holds params [ ("repo", Some (JStr repo));
                    ("project", JStr <$> given project);
                    ("branch", JStr <$> given branch) ]) /\
  (exists request params,
     calls (snd (get_project_status requests_request self repo project branch s))
     = calls s ++ [request] /\
     req_method request = "GET" /\
     req_url request = Atlantis.base_url self +:+ "/api/project/status" /\
     req_json request = None /\
     req_params request = Some params /\
     holds params [ ("repo", Some (JStr repo));
                    ("project", JStr <$> given project);
                    ("branch", JStr <$> given branch) ]) /\
  (exists request params,
     calls (snd (delete_lock requests_request self lock_id lock_repo project s))
     = calls s ++ [request] /\
     req_method request = "DELETE" /\
     req_url request = Atlantis.base_url self +:+ "/api/locks" /\
     req_json request = None /\
     req_params request = Some params /\
     holds params [ ("id", Some (JStr lock_id));
                    ("repo", JStr <$> given lock_repo);
                    ("project", JStr <$> given project) ]).
Proof.
  split; [| split]; unfold get_project, get_project_status, delete_lock;
    do 2 eexists; rewrite make_request_sends;
    (split; [reflexivity |]); cbn [req_method req_url req_json req_params];
    (repeat (split; [reflexivity |])); split.
  - intros k v Hin. cbn [In] in Hin.
    destruct Hin as [[= <- <-] | [[= <- <-] | [[= <- <-] | []]]].
    + rewrite !optional_other by discriminate. reflexivity.
    + rewrite optional_other by discriminate. apply optional_binding. reflexivity.
    + apply optional_binding. rewrite optional_other by discriminate. reflexivity.
  - intros k Hk. cbn [map fst In] in Hk.
    rewrite !optional_other by (intros ->; tauto).
    apply lookup_singleton_ne. intros <-. tauto.
  - intros k v Hin. cbn [In] in Hin.
    destruct Hin as [[= <- <-] | [[= <- <-] | [[= <- <-] | []]]].
    + rewrite !optional_other by discriminate. reflexivity.
    + rewrite optional_other by discriminate. apply optional_binding. reflexivity.
    + apply optional_binding. rewrite optional_other by discriminate. reflexivity.
  - intros k Hk. cbn [map fst In] in Hk.
    rewrite !optional_other by (intros ->; tauto).
    apply lookup_singleton_ne. intros <-. tauto.
  - intros k v Hin. cbn [In] in Hin.
    destruct Hin as [[= <- <-] | [[= <- <-] | [[= <- <-] | []]]].
    + rewrite !optional_other by discriminate. reflexivity.
    + rewrite optional_other by discriminate. apply optional_binding. reflexivity.
    + apply optional_binding. rewrite optional_other by discriminate. reflexivity.
  - intros k Hk. cbn [map fst In] in Hk.
    rewrite !optional_other by (intros ->; tauto).
    apply lookup_singleton_ne. intros <-. tauto.
Qed.

(** The listing operations each send one GET request without a JSON body:
    [get_projects] without a query, [get_locks] with the repository in the
    query exactly when it is given and not empty, [get_events] with the
    limit in the query exactly when it is given and not zero. *)
Theorem listing_queries (self : AtlantisService) (repo : option string)
    (limit : option Z) (s : Recorded W Request) :
  (exists request,
     calls (snd (get_projects requests_request self s)) = calls s ++ [request] /\
     req_method request = "GET" /\
     req_url request = Atlantis.base_url self +:+ "/api/projects" /\
     req_json request = None /\
     req_params request = None) /\
  (exists request params,
     calls (snd (get_locks requests_request self repo s)) = calls s ++ [request] /\
     req_method request = "GET" /\
     req_url request = Atlantis.base_url self +:+ "/api/locks" /\
     req_json request = None /\
     req_params request = Some params /\
     holds params [ ("repo", JStr <$> given repo) ]) /\
  (exists request params,
     calls (snd (get_events requests_request self limit s)) = calls s ++ [request] /\
     req_method request = "GET" /\
     req_url request = Atlantis.base_url self +:+ "/api/events" /\
     req_json request = None /\
     req_params request = Some params /\
     holds params [ ("limit", JNum <$> given_int limit) ]).
Proof.
  split; [| split]; unfold get_projects, get_locks, get_events.
  - eexists. rewrite unwrap_snd, make_request_sends. repeat split.
  - do 2 eexists. rewrite unwrap_snd, make_request_sends.
    (split; [reflexivity |]); cbn [req_method req_url req_json req_params].
    (repeat (split; [reflexivity |])). split.
    + intros k v Hin. cbn [In] in Hin. destruct Hin as [[= <- <-] | []].
      apply optional_binding. reflexivity.
    + intros k Hk. cbn [map fst In] in Hk.
      rewrite optional_other by (intros ->; tauto). apply lookup_empty.
  - do 2 eexists. rewrite unwrap_snd, make_request_sends.
    (split; [reflexivity |]); cbn [req_method req_url req_json req_params].
    (repeat (split; [reflexivity |])). split.
    + intros k v Hin. cbn [In] in Hin. destruct Hin as [[= <- <-] | []].
      destruct limit as [n|]; [| reflexivity]. cbn [given_int].
      destruct (n =? 0); [reflexivity | apply lookup_insert_eq].
    + intros k Hk. cbn [map fst In] in Hk.
      destruct limit as [n|]; [| apply lookup_empty].
      destruct (negb (n =? 0)); [| apply lookup_empty].
      rewrite lookup_insert_ne by (intros <-; tauto). apply lookup_empty.
Qed.

End AtlantisQueries.

(** *** Runs against the scripted server *)

Section AtlantisFurtherRuns.

Import Atlantis.

Lemma init_token_takes_precedence_witness :
  exists self,
    __init__ "https://atlantis.example.com" (Some "user") (Some "pass") (Some "secret")
      true 30 = Ok self /\
    auth self = None /\
    headers self = {[ "X-Atlantis-Token" := "secret"; "Authorization" := "Bearer secret" ]}.
Proof.
  destruct (init_token_takes_precedence "https://atlantis.example.com" (Some "user")
              (Some "pass") "secret" true 30 ltac:(discriminate) ltac:(discriminate))
    as (self & Hself & Hauth & Hheaders & _).
  exists self. repeat split; assumption.
Defined.

Lemma init_endpoint_of_slashes_witness :
  exists self,
    __init__ "//" None None (Some "secret") true 30 = Ok self /\
    Atlantis.base_url self = "".
Proof.
  destruct (init_endpoint_of_slashes 2 None None (Some "secret") true 30 ltac:(lia)
              ltac:(reflexivity))
    as (self & Hself & Hbase & _).
  exists self. split; assumption.
Defined.

Lemma make_request_transport_failure_witness :
  exists request,
    _make_request Mock.scripted Mock.token_client "GET" "/api/version" None None
      (Mock.start [])
    = (Raise (RequestException "Connection refused"),
       {| remote := []; calls := [] ++ [request] |}) /\
    req_method request = "GET" /\
    req_url request = "https://atlantis.example.com" +:+ "/api/version".
Proof.
  exact (make_request_transport_failure Mock.scripted Mock.token_client "GET"
           "/api/version" None None (Mock.start [])
           (RequestException "Connection refused") [] (fun _ => eq_refl)).
Defined.

Lemma no_body_reads_as_empty_witness :
  fst (get_projects Mock.scripted Mock.token_client (Mock.start [Mock.no_content]))
  = inr (JList []) /\
  fst (get_version Mock.scripted Mock.token_client (Mock.start [Mock.no_content]))
  = Ok (JObj ∅).
Proof.
  destruct (no_body_reads_as_empty Mock.scripted Mock.token_client
              (Mock.start [Mock.no_content]) Mock.no_content [] (fun _ => eq_refl)
              ltac:(cbn; lia) ltac:(left; reflexivity))
    as (Hprojects & _ & _ & _ & _ & _ & Hversion & _).
  split; assumption.
Defined.

Lemma listing_reads_its_key_witness :
  fst (get_locks Mock.scripted Mock.token_client None (Mock.start [Mock.listing]))
  = inr (JList [JStr "lock-1"]) /\
  fst (get_events Mock.scripted Mock.token_client (Some 10) (Mock.start [Mock.listing]))
  = inr (JList []) /\
  fst (get_locks Mock.scripted Mock.token_client None (Mock.start [Mock.bare_list]))
  = inl (AttributeError (JList [JStr "lock-1"])).
Proof.
  destruct (listing_reads_its_key Mock.scripted Mock.token_client
              (Mock.start [Mock.listing]) Mock.listing [] (fun _ => eq_refl)
              ltac:(cbn; lia) ltac:(discriminate) ltac:(discriminate))
    as (Hobject & _ & _).
  destruct (Hobject _ eq_refl) as (_ & Hlocks & Hevents).
  destruct (listing_reads_its_key Mock.scripted Mock.token_client
              (Mock.start [Mock.bare_list]) Mock.bare_list [] (fun _ => eq_refl)
              ltac:(cbn; lia) ltac:(discriminate) ltac:(discriminate))
    as (_ & Hother & _).
  destruct (Hother _ eq_refl ltac:(discriminate)) as (_ & Hlist & _).
  split; [| split].
  - rewrite (Hlocks None). reflexivity.
  - rewrite (Hevents (Some 10)). reflexivity.
  - exact (Hlist None).
Defined.

End AtlantisFurtherRuns.

(** ** Construction, webhooks, pull requests, branch protection, removals *)

Section GitHubAdminFacts.

Import GitHub GitHubAdmin.

(** [GitHubService.__init__] refuses an empty token; otherwise it hands the
    token, the TLS flag and the timeout to the SDK unchanged, with the base
    URL exactly when one is given and not empty, so that an empty base URL
    selects the public service like no base URL. *)
Theorem github_init (token : string) (base_url : option string) (verify : bool)
    (timeout : Z) :
  (token = "" ->
   GitHubAdmin.__init__ token base_url verify timeout
   = Raise (ValueError "token is required")) /\
  (token <> "" ->
   GitHubAdmin.__init__ token base_url verify timeout =
   Ok {| GitHubAdmin.token := token;
         GitHubAdmin.timeout := timeout;
         GitHubAdmin.verify := verify;
         GitHubAdmin.github :=
           {| arg_base_url := given base_url;
              arg_login_or_token := token;
              arg_verify := verify;
              arg_timeout := timeout |} |}).
Proof.
  unfold GitHubAdmin.__init__, given. split.
  - intros ->. reflexivity.
  - intros Htoken. apply truthy_true in Htoken. rewrite Htoken. cbn [negb].
    destruct base_url as [url|]; [| reflexivity].
    destruct (truthy_opt (Some url)); reflexivity.
Qed.

Context {W : Type} (github : PyGithub W) (admin : PyGithubAdmin W).

Lemma core_perform {A} (f : W -> Result A * W) (entry : Result A -> Call)
    (s : Recorded W AdminCall) :
  core (perform f entry) s = perform f (fun r => Core (entry r)) s.
Proof.
  unfold core, perform. cbn [remote calls].
  destruct (f (remote s)) as [r w]. cbn [remote calls map app]. reflexivity.
Qed.

Ltac admin_run :=
  unfold create_webhook, delete_webhook, create_pull_request, update_branch_protection,
    add_label_to_pull_request, remove_label_from_pull_request,
    delete_pull_request_comment, get_repository, bind;
  cbv beta; rewrite ?core_perform; unfold perform, ret; cbv beta iota zeta.

Ltac admin_answer H :=
  rewrite ?core_perform; unfold perform;
  rewrite H; repeat (progress (cbv beta iota zeta; cbn [remote calls])).

(** Once the repository is resolved, [create_webhook] asks for one hook
    named [web] whose configuration holds the URL, the content type, the
    secret exactly when one is given and not empty, and nothing else; the
    events are the given list, the empty list included, and the wildcard
    only when no list is given.  It returns what that call returns. *)
Theorem create_webhook_request (owner repo url content_type : string)
    (secret : option string) (events : option (list string)) (active : bool)
    (s : Recorded W AdminCall) (repository : Repository) (w1 : W) :
  get_repo github (owner +:+ "/" +:+ repo) (remote s) = (Ok repository, w1) ->
  exists config,
    holds config [ ("url", Some url);
                   ("content_type", Some content_type);
                   ("secret", given secret) ] /\
    create_webhook github admin owner repo url content_type secret events active s =
    (fst (create_hook admin repository "web" config (default ["*"] events) active w1),
     {| remote := snd (create_hook admin repository "web" config (default ["*"] events)
                         active w1);
        calls := calls s ++
          [ Core (GetRepo (owner +:+ "/" +:+ repo) (Ok repository));
            CreateHook repository "web" config (default ["*"] events) active
              (fst (create_hook admin repository "web" config (default ["*"] events)
                      active w1)) ] |}).
Proof.
  intros Hrepo.
  exists (if truthy_opt secret
          then <["secret" := default "" secret]>
                 ({[ "url" := url; "content_type" := content_type ]} : gmap string string)
          else {[ "url" := url; "content_type" := content_type ]}).
  split; [split |].
  - intros k v Hin. cbn [In] in Hin.
    destruct Hin as [[= <- <-] | [[= <- <-] | [[= <- <-] | []]]].
    + destruct (truthy_opt secret); reflexivity.
    + destruct (truthy_opt secret); reflexivity.
    + unfold given. destruct (truthy_opt secret) eqn:Hs; [| reflexivity].
      destruct secret as [v|]; [| discriminate Hs]. apply lookup_insert_eq.
  - intros k Hk. cbn [map fst In] in Hk.
    assert (Hbase : ({[ "url" := url; "content_type" := content_type ]}
                     : gmap string string) !! k = None).
    { rewrite lookup_insert_ne by (intros <-; tauto).
      apply lookup_singleton_ne. intros <-. tauto. }
    destruct (truthy_opt secret); [| exact Hbase].
    rewrite lookup_insert_ne by (intros <-; tauto). exact Hbase.
  - admin_run. admin_answer Hrepo.
    assert (Hevents : match events with Some given => given | None => ["*"] end
                      = default ["*"] events) by (destruct events; reflexivity).
    rewrite Hevents.
    destruct (create_hook admin repository "web" _ (default ["*"] events) active w1)
      as [r w2].
    cbn [fst snd]. rewrite <- app_assoc. reflexivity.
Qed.

(** Once the repository is resolved, [create_pull_request] asks for one
    pull request whose body is the given body, or the empty string when no
    body or an empty one is given; title, head, base and draft flag are
    passed as given. *)
Theorem create_pull_request_body (owner repo title head base : string)
    (body : option string) (draft : bool) (s : Recorded W AdminCall)
    (repository : Repository) (w1 : W) :
  get_repo github (owner +:+ "/" +:+ repo) (remote s) = (Ok repository, w1) ->
  create_pull_request github admin owner repo title head base body draft s =
  (fst (create_pull admin repository title (default "" body) head base draft w1),
   {| remote := snd (create_pull admin repository title (default "" body) head base
                       draft w1);
      calls := calls s ++
        [ Core (GetRepo (owner +:+ "/" +:+ repo) (Ok repository));
          CreatePull repository title (default "" body) head base draft
            (fst (create_pull admin repository title (default "" body) head base
                    draft w1)) ] |}).
Proof.
  intros Hrepo. admin_run. admin_answer Hrepo.
  assert (Hbody : (if truthy_opt body then default "" body else "") = default "" body).
  { destruct body as [b|]; [| reflexivity]. cbn [truthy_opt default from_option id].
    destruct (truthy b) eqn:Hb; [reflexivity |].
    apply truthy_false in Hb. symmetry. exact Hb. }
  rewrite Hbody.
  destruct (create_pull admin repository title (default "" body) head base draft w1)
    as [r w2].
  cbn [fst snd]. rewrite <- app_assoc. reflexivity.
Qed.


(** *** Removals and labels *)

Lemma admin_perform_calls {A} (f : W -> Result A * W) (entry : Result A -> AdminCall)
    s r s' :
  perform f entry s = (r, s') -> calls s' = calls s ++ [entry r].
Proof. intros H. apply perform_inv in H as [_ H]. exact H. Qed.

Ltac admin_unchained :=
  repeat match goal with
         | H : calls ?x = _ |- context [calls ?x] => rewrite H; clear H
         end;
  rewrite <- ?app_assoc.


Ltac raised H s1 :=
  match type of H with
  | context [match perform ?f ?en ?s0 with _ => _ end] =>
      let E := fresh "E" in
      destruct (perform f en s0) as [[? | ?] s1] eqn:E;
      apply admin_perform_calls in E;
      [| injection H as <- <-; eexists; split; [admin_unchained; reflexivity | reflexivity]]
  end.

Ltac opened H :=
  unfold delete_webhook, delete_pull_request_comment, add_label_to_pull_request,
    remove_label_from_pull_request, get_repository, bind in H;
  cbv beta in H; rewrite ?core_perform in H.


(** A removal that raises has removed nothing: among the calls it made
    there is no hook deletion, comment deletion or label removal that
    returned.  In particular nothing is deleted when the lookup of the
    hook or of the comment fails. *)
Theorem failure_removes_nothing (owner repo : string) (s s' : Recorded W AdminCall)
    (e : PyExn) :
  (forall hook_id,
     delete_webhook github admin owner repo hook_id s = (Raise e, s') ->
     exists new, calls s' = calls s ++ new /\
                 forallb (fun c => negb (removes c)) new = true) /\
  (forall comment_id,
     delete_pull_request_comment github admin owner repo comment_id s = (Raise e, s') ->
     exists new, calls s' = calls s ++ new /\
                 forallb (fun c => negb (removes c)) new = true) /\
  (forall pr_number label_name,
     remove_label_from_pull_request github admin owner repo pr_number label_name s
     = (Raise e, s') ->
     exists new, calls s' = calls s ++ new /\
                 forallb (fun c => negb (removes c)) new = true).
Proof.
  split; [| split]; intros *; intros H; opened H.
  - raised H s1. raised H s2. raised H s3. discriminate H.
  - raised H s1. injection H as <- <-. eexists.
    split; [admin_unchained; reflexivity | reflexivity].
  - raised H s1. rewrite ?core_perform in H. raised H s2. raised H s3. discriminate H.
Qed.

End GitHubAdminFacts.

(** *** Runs on the in-memory host *)

Section GitHubAdminRuns.

Import GitHub GitHubAdmin.

Lemma github_init_witness :
  GitHubAdmin.__init__ "" (Some "https://github.example.com/api/v3") true 30
  = Raise (ValueError "token is required") /\
  GitHubAdmin.__init__ "ghp_test123" (Some "") true 30 =
  Ok {| GitHubAdmin.token := "ghp_test123";
        GitHubAdmin.timeout := 30;
        GitHubAdmin.verify := true;
        GitHubAdmin.github :=
          {| arg_base_url := given (Some "");
             arg_login_or_token := "ghp_test123";
             arg_verify := true;
             arg_timeout := 30 |} |}.
Proof.
  split.
  - exact (proj1 (github_init "" (Some "https://github.example.com/api/v3") true 30)
             eq_refl).
  - exact (proj2 (github_init "ghp_test123" (Some "") true 30) ltac:(discriminate)).
Defined.

Lemma create_webhook_request_witness :
  exists config hook s',
    create_webhook Mock.host Mock.admin_host "octocat" "Hello-World"
      "https://example.com/webhook" "json" (Some "") (Some []) true
      (Mock.start Mock.one_file) = (Ok hook, s') /\
    config !! "secret" = None /\
    last (calls s') =
    Some (CreateHook {| full_name := "octocat/Hello-World" |} "web" config [] true
            (Ok hook)).
Proof.
  destruct (create_webhook_request Mock.host Mock.admin_host "octocat" "Hello-World"
              "https://example.com/webhook" "json" (Some "") (Some []) true
              (Mock.start Mock.one_file) {| full_name := "octocat/Hello-World" |}
              Mock.one_file eq_refl)
    as (config & [Hbound _] & Hrun).
  exists config. do 2 eexists. split; [exact Hrun |].
  split; [| reflexivity].
  apply (Hbound "secret" (given (Some ""))). cbn. tauto.
Defined.

Lemma create_pull_request_body_witness :
  exists pr s',
    create_pull_request Mock.host Mock.admin_host "octocat" "Hello-World"
      "Add new feature" "feature-branch" "main" None false (Mock.start Mock.one_file)
    = (Ok pr, s') /\
    last (calls s') =
    Some (CreatePull {| full_name := "octocat/Hello-World" |} "Add new feature" ""
            "feature-branch" "main" false (Ok pr)).
Proof.
  pose proof (create_pull_request_body Mock.host Mock.admin_host "octocat" "Hello-World"
                "Add new feature" "feature-branch" "main" None false
                (Mock.start Mock.one_file) {| full_name := "octocat/Hello-World" |}
                Mock.one_file eq_refl) as Hrun.
  do 2 eexists. split; [exact Hrun | reflexivity].
Defined.



Lemma failure_removes_nothing_witness :
  exists e s',
    delete_webhook Mock.host Mock.admin_host "octocat" "Hello-World" 123456
      (Mock.start Mock.one_file_down) = (Raise e, s') /\
    exists new, calls s' = [] ++ new /\
                forallb (fun c => negb (removes c)) new = true.
Proof.
  pose (run := delete_webhook Mock.host Mock.admin_host "octocat" "Hello-World" 123456
                 (Mock.start Mock.one_file_down)).
  assert (Hrun : run = (Raise (GithubException 500 "Server Error"), snd run))
    by (vm_compute; reflexivity).
  exists (GithubException 500 "Server Error"), (snd run). split; [exact Hrun |].
  exact (proj1 (failure_removes_nothing Mock.host Mock.admin_host "octocat" "Hello-World"
                  (Mock.start Mock.one_file_down) _ _)
           123456 Hrun).
Defined.

End GitHubAdminRuns.
